(** * xhs_agent: the publish agent of src/index.ts, embedded and verified

    The agent attaches to a Chrome instance over CDP, resolves a list of
    image references to local files, drives the creator page through
    upload, form filling and a bounded submit-and-confirm loop, and prints
    one JSON result line.

    The embedding is shallow.  Every [async function] of the source is a
    computation in a state-and-exception monad [M] over a [World] that
    holds what the process can observe or change: the file system, the two
    output streams, the child processes it spawned, and two opaque
    oracles, one for the host (wall clock, outgoing HTTPS) and one for the
    browser (everything reached through the CDP endpoint and Playwright).
    The oracles are arbitrary: theorems quantify over all of them. *)

From Stdlib Require Import ZArith Lia Ascii String.
From stdpp Require Import base strings list gmap pretty.

Set Warnings "-register-all".

(** ** JavaScript string helpers *)

Module Js.

(** [s.startsWith(p)] *)
Definition startsWith (p s : string) : bool := String.prefix p s.

(** [s.includes(needle)] *)
Fixpoint includes (needle s : string) : bool :=
  String.prefix needle s
  || match s with
     | EmptyString => false
     | String _ rest => includes needle rest
     end.

(** [s.substring(0, n)], on the bytes of [s]. *)
Definition substring0 (n : nat) (s : string) : string := String.substring 0 n s.

(** [xs.slice(0, n).join(sep)] *)
Definition sliceJoin (n : nat) (sep : string) (xs : list string) : string :=
  String.concat sep (take n xs).

(** [path.join(a, b)] for already normalised segments on a POSIX host. *)
Definition path_join (a b : string) : string := a +:+ "/" +:+ b.

(** A JavaScript string used as a condition: empty is falsy. *)
Definition truthy (s : string) : bool :=
  match s with EmptyString => false | _ => true end.

End Js.

(** ** The regular expression of the inline-image branch

    [/^data:image\/([a-zA-Z]+);base64,(.+)$/] has no alternation and its
    two groups are separated by a character outside the first class, so a
    match, when there is one, is unique: strip the literal head, take the
    longest run of letters, strip [";base64,"], and require the rest to be
    non-empty and free of line terminators (which [.] does not match). *)

Module DataUrl.

Definition is_letter (a : ascii) : bool :=
  let n := nat_of_ascii a in
  ((65 <=? n)%nat && (n <=? 90)%nat) || ((97 <=? n)%nat && (n <=? 122)%nat).

Fixpoint span_letters (s : string) : string * string :=
  match s with
  | String a rest =>
      if is_letter a
      then let '(run, tail) := span_letters rest in (String a run, tail)
      else (EmptyString, s)
  | EmptyString => (EmptyString, EmptyString)
  end.

Fixpoint all_letters (s : string) : bool :=
  match s with
  | EmptyString => true
  | String a rest => is_letter a && all_letters rest
  end.

Fixpoint strip_prefix (p s : string) : option string :=
  match p, s with
  | EmptyString, _ => Some s
  | String a p', String b s' =>
      if Ascii.eqb a b then strip_prefix p' s' else None
  | String _ _, EmptyString => None
  end.

(** U+2028 and U+2029 as the byte strings E2 80 A8 and E2 80 A9. *)
Definition line_separator : string :=
  String (ascii_of_nat 226) (String (ascii_of_nat 128) (String (ascii_of_nat 168) EmptyString)).
Definition paragraph_separator : string :=
  String (ascii_of_nat 226) (String (ascii_of_nat 128) (String (ascii_of_nat 169) EmptyString)).

(** [true] when every character is matched by [.]: no LF, no CR, and
    neither U+2028 nor U+2029. *)
Fixpoint dot_only (s : string) : bool :=
  match s with
  | EmptyString => true
  | String a rest =>
      let n := nat_of_ascii a in
      if (n =? 10)%nat || (n =? 13)%nat then false
      else if String.prefix line_separator s || String.prefix paragraph_separator s then false
      else dot_only rest
  end.

(** The two capture groups of a successful [sourcePath.match(...)]. *)
Definition matchDataUrl (s : string) : option (string * string) :=
  match strip_prefix "data:image/" s with
  | None => None
  | Some rest =>
      let '(subtype, tail) := span_letters rest in
      match subtype with
      | EmptyString => None
      | _ =>
          match strip_prefix ";base64," tail with
          | None => None
          | Some payload =>
              match payload with
              | EmptyString => None
              | _ => if dot_only payload then Some (subtype, payload) else None
              end
          end
      end
  end.

End DataUrl.

(** ** Values printed on standard output

    Each result is [console.log(JSON.stringify(obj))]; a line of standard
    output is kept as the object that was stringified.  [JSON.stringify]
    omits a property whose value is [undefined], which [optional] models. *)

Inductive json : Type :=
  | JStr (s : string)
  | JObj (fields : list (string * json)).

Definition optional (key : string) (v : option string) : list (string * json) :=
  match v with
  | Some s => [(key, JStr s)]
  | None => []
  end.

(** ** What the outside world can answer *)

(** A promise that has settled. *)
Inductive Settled (A : Type) : Type :=
  | Fulfilled (a : A)
  | Rejected (message : string).
Arguments Fulfilled {A} a.
Arguments Rejected {A} message.

(** How [https.get(url, cb)] ends inside [downloadImage]: the callback is
    called with a response, the request emits ['error'], or the call
    itself throws (a malformed URL, a protocol other than https).  A
    response whose body stream never finishes leaves the promise pending
    and is not among the outcomes. *)
Inductive HttpOutcome : Type :=
  | Response (statusCode : Z) (statusMessage : string) (body : string)
  | RequestError (message : string)
  | RequestThrows (message : string).

(** Playwright locators are descriptions; nothing is looked up until a
    method is awaited on them. *)
Inductive Locator : Type :=
  | GetByText (text : string) (exact : bool)
  | GetByRole (role name : string) (exact : bool)
  | Css (selector : string)
  | FirstOf (l : Locator).

(** The two kinds of wait the workflow starts. *)
Inductive Waiter : Type :=
  | LocatorWaitFor (l : Locator) (state : string) (timeout : Z)
  | WaitForURL (glob : string) (timeout : Z).

(** Index of the promise that settles first in a three-way [Promise.race]. *)
Inductive Slot : Type := Slot0 | Slot1 | Slot2.

(** An entry of the file system. *)
Inductive Node : Type :=
  | File (content : string)
  | Dir.

(** A detached child process: executable and arguments. *)
Record ChildProcess : Type := mkChild { exe : string; argv : list string }.

(** The environment the agent runs in.  [Host] is the state behind the
    wall clock and the network, [Chrome] the state behind the debugging
    endpoint.  Awaited Playwright calls may reject; synchronous getters,
    timers and the final disconnect always complete. *)
Class Env : Type := {
  Host : Type;
  Chrome : Type;
  Browser : Type;
  Context : Type;
  Page : Type;
  (* constants of the host *)
  homedir : string;
  tmpdir : string;
  platform : string;
  (* Buffer.from(s, 'base64') *)
  base64_decode : string -> string;
  (* Date.now() *)
  date_now : Host -> Z * Host;
  (* https.get(url, ...) *)
  https_get : string -> Host -> HttpOutcome * Host;
  (* fetch(url), reduced to response.ok *)
  fetch_ok : string -> Chrome -> Settled bool * Chrome;
  (* spawn(path, args, {detached: true, stdio: 'ignore'}) seen from the endpoint *)
  on_spawn : ChildProcess -> Chrome -> Chrome;
  (* time passing: setTimeout and page.waitForTimeout *)
  elapse : Z -> Chrome -> Chrome;
  connectOverCDP : string -> Chrome -> Settled Browser * Chrome;
  browser_contexts : Browser -> Chrome -> list Context;
  context_pages : Context -> Chrome -> list Page;
  context_newPage : Context -> Chrome -> Settled Page * Chrome;
  browser_newContext : Browser -> Z * Z -> Chrome -> Settled Context * Chrome;
  browser_close : Browser -> Chrome -> Chrome;
  page_goto : Page -> string -> string -> Z -> Chrome -> Settled unit * Chrome;
  page_url : Page -> Chrome -> string;
  page_wait : Page -> Waiter -> Chrome -> Settled unit * Chrome;
  page_race : Page -> Waiter -> Waiter -> Waiter -> Chrome -> Settled Slot * Chrome;
  locator_isVisible : Page -> Locator -> option Z -> Chrome -> Settled bool * Chrome;
  locator_dispatchEvent : Page -> Locator -> string -> Chrome -> Settled unit * Chrome;
  locator_click : Page -> Locator -> Chrome -> Settled unit * Chrome;
  locator_setInputFiles : Page -> Locator -> list string -> Chrome -> Settled unit * Chrome;
  locator_fill : Page -> Locator -> string -> Chrome -> Settled unit * Chrome;
  locator_count : Page -> Locator -> Chrome -> Settled nat * Chrome;
  locator_allTextContents : Page -> Locator -> Chrome -> Settled (list string) * Chrome;
  keyboard_press : Page -> string -> Chrome -> Settled unit * Chrome;
  keyboard_type : Page -> string -> Chrome -> Settled unit * Chrome;
  page_title : Page -> Chrome -> Settled string * Chrome;
  page_innerText : Page -> string -> Chrome -> Settled string * Chrome;
}.

(** ** The world and the monad *)

(** How a computation ends: a value, a thrown [Error] (kept as its
    [message]), or no end at all within the given fuel. *)
Inductive Res (A : Type) : Type :=
  | Ok (a : A)
  | Throw (message : string)
  | Diverge.
Arguments Ok {A} a.
Arguments Throw {A} message.
Arguments Diverge {A}.

Section Agent.

Context `{env : Env}.

Record World : Type := mkWorld {
  files : gmap string Node;       (* the file system *)
  stdout : list json;             (* console.log *)
  stderr : list string;           (* console.error, message field of each log line *)
  spawned : list ChildProcess;    (* processes started by spawn, oldest first *)
  host : Host;
  chrome : Chrome;
}.

Definition with_files (f : gmap string Node) (w : World) : World :=
  mkWorld f (stdout w) (stderr w) (spawned w) (host w) (chrome w).
Definition with_stdout (o : list json) (w : World) : World :=
  mkWorld (files w) o (stderr w) (spawned w) (host w) (chrome w).
Definition with_stderr (e : list string) (w : World) : World :=
  mkWorld (files w) (stdout w) e (spawned w) (host w) (chrome w).
Definition with_spawned (p : list ChildProcess) (w : World) : World :=
  mkWorld (files w) (stdout w) (stderr w) p (host w) (chrome w).
Definition with_host (h : Host) (w : World) : World :=
  mkWorld (files w) (stdout w) (stderr w) (spawned w) h (chrome w).
Definition with_chrome (c : Chrome) (w : World) : World :=
  mkWorld (files w) (stdout w) (stderr w) (spawned w) (host w) c.

Definition M (A : Type) : Type := World -> Res A * World.

Definition ret {A} (a : A) : M A := fun w => (Ok a, w).

Definition bind {A B} (m : M A) (k : A -> M B) : M B :=
  fun w =>
    match m w with
    | (Ok a, w') => k a w'
    | (Throw e, w') => (Throw e, w')
    | (Diverge, w') => (Diverge, w')
    end.

Definition throw {A} (message : string) : M A := fun w => (Throw message, w).

Definition diverge {A} : M A := fun w => (Diverge, w).

(** [try { body } catch (e) { handler(e.message) }] *)
Definition try_catch {A} (body : M A) (handler : string -> M A) : M A :=
  fun w =>
    match body w with
    | (Throw e, w') => handler e w'
    | other => other
    end.

(** [try { body } catch (e) { handler } finally { cleanup }]: the cleanup
    runs after the body or the handler has ended, and an exception it
    throws replaces the outcome. *)
Definition try_catch_finally {A} (body : M A) (handler : string -> M A)
    (cleanup : M unit) : M A :=
  fun w =>
    match try_catch body handler w with
    | (Diverge, w1) => (Diverge, w1)
    | (r, w1) =>
        match cleanup w1 with
        | (Ok _, w2) => (r, w2)
        | (Throw e, w2) => (Throw e, w2)
        | (Diverge, w2) => (Diverge, w2)
        end
    end.

Notation "'let*' x := m 'in' k" := (bind m (fun x => k))
  (at level 10, x name, m at level 100, k at level 200).
Notation "m >> k" := (bind m (fun _ => k))
  (at level 100, k at level 200, right associativity).

(** *** Primitive effects *)

Definition gets {A} (f : World -> A) : M A := fun w => (Ok (f w), w).

Definition modify (f : World -> World) : M unit := fun w => (Ok tt, f w).

(** An awaited call on the browser. *)
Definition await {A} (call : Chrome -> Settled A * Chrome) : M A :=
  fun w =>
    match call (chrome w) with
    | (Fulfilled a, c) => (Ok a, with_chrome c w)
    | (Rejected e, c) => (Throw e, with_chrome c w)
    end.

(** [log(msg)]: one line on standard error.  The line carries the message
    with its fixed prefix; its timestamp field is left out. *)
Definition log (msg : string) : M unit :=
  modify (fun w => with_stderr (stderr w ++ ["[XHS Agent] " +:+ msg]) w).

(** [console.log(JSON.stringify(obj))] *)
Definition console_log (obj : json) : M unit :=
  modify (fun w => with_stdout (stdout w ++ [obj]) w).

(** [sleep(ms)] and [page.waitForTimeout(ms)] *)
Definition sleep (ms : Z) : M unit :=
  modify (fun w => with_chrome (elapse ms (chrome w)) w).
Definition waitForTimeout (page : Page) (ms : Z) : M unit :=
  modify (fun w => with_chrome (elapse ms (chrome w)) w).

(** [Date.now()] *)
Definition Date_now : M Z :=
  fun w => let '(t, h) := date_now (host w) in (Ok t, with_host h w).

(** [fs.existsSync], [fs.mkdirSync(p, {recursive: true})],
    [fs.writeFileSync], [fs.createWriteStream] (which opens, so creates or
    truncates, the file), and [fs.unlink]. *)
Definition existsSync (p : string) : M bool :=
  gets (fun w => bool_decide (is_Some (files w !! p))).
Definition mkdirSync (p : string) : M unit :=
  modify (fun w => with_files (<[p := Dir]> (files w)) w).
Definition writeFileSync (p data : string) : M unit :=
  modify (fun w => with_files (<[p := File data]> (files w)) w).
Definition createWriteStream (p : string) : M unit :=
  modify (fun w => with_files (<[p := File EmptyString]> (files w)) w).
Definition unlink (p : string) : M unit :=
  modify (fun w => with_files (delete p (files w)) w).

(** ** CDP configuration *)

Definition CDP_PORT : Z := 9222.
Definition CDP_ENDPOINT : string := "http://127.0.0.1:" +:+ pretty CDP_PORT.
Definition USER_DATA_DIR : string :=
  Js.path_join (Js.path_join homedir ".auto-tauri") "browser-profile".

Definition CHROME_PATHS : list string :=
  [ "/Applications/Google Chrome.app/Contents/MacOS/Google Chrome";
    "/Applications/Chromium.app/Contents/MacOS/Chromium";
    Js.path_join homedir "Applications/Google Chrome.app/Contents/MacOS/Google Chrome";
    "C:\Program Files\Google\Chrome\Application\chrome.exe";
    "C:\Program Files (x86)\Google\Chrome\Application\chrome.exe";
    Js.path_join homedir "AppData\Local\Google\Chrome\Application\chrome.exe" ].

(** ** CDP browser management *)

(** The first path of [CHROME_PATHS] that exists, or [null]. *)
Definition getChromePath : M (option string) :=
  gets (fun w => List.find (fun p => bool_decide (is_Some (files w !! p))) CHROME_PATHS).

(** [fetch] may reject; the [catch] turns that into [false]. *)
Definition isCDPAvailable : M bool :=
  try_catch (await (fetch_ok (CDP_ENDPOINT +:+ "/json/version")))
            (fun _ => ret false).

(** [spawn(...)] followed by [unref()]: the child is recorded and the
    endpoint is told about it. *)
Definition spawn (path : string) (args : list string) : M unit :=
  modify (fun w =>
    let child := mkChild path args in
    with_chrome (on_spawn child (chrome w)) (with_spawned (spawned w ++ [child]) w)).

(** The polling loop of [launchChrome]; [left] is [maxRetries - retries]. *)
Fixpoint pollCDP (left : nat) : M unit :=
  match left with
  | O => throw "Chrome 启动超时"
  | S left' =>
      let* up := isCDPAvailable in
      if up then log "CDP 端口已就绪"
      else sleep 500 >> pollCDP left'
  end.

Definition launchChrome : M unit :=
  let* found := getChromePath in
  match found with
  | None => throw "Chrome 未找到，请安装 Google Chrome"
  | Some chromePath =>
      let* present := existsSync USER_DATA_DIR in
      (if negb present then mkdirSync USER_DATA_DIR else ret tt) >>
      log "正在启动 Chrome (CDP Stealth 模式)..." >>
      log ("Chrome 路径: " +:+ chromePath) >>
      log ("用户数据目录: " +:+ USER_DATA_DIR) >>
      spawn chromePath
        [ "--remote-debugging-port=" +:+ pretty CDP_PORT;
          "--user-data-dir=" +:+ USER_DATA_DIR;
          "--no-first-run";
          "--no-default-browser-check" ] >>
      log "等待 CDP 端口就绪..." >>
      pollCDP 20
  end.

(** The call that attaches, shared by both branches of [connectCDP]. *)
Definition attach : M Browser :=
  let* browser := await (connectOverCDP CDP_ENDPOINT) in
  log "已通过 CDP 连接到浏览器 (Stealth 模式)" >>
  ret browser.

Definition connectCDP : M Browser :=
  let* up := isCDPAvailable in
  (if up then log "检测到已运行的 Chrome，正在连接..." else launchChrome) >>
  attach.

Definition getOrCreatePage (browser : Browser) : M Page :=
  let* contexts := gets (fun w => browser_contexts browser (chrome w)) in
  match contexts with
  | context :: _ =>
      let* pages := gets (fun w => context_pages context (chrome w)) in
      match pages with
      | page :: _ => log "使用现有页面" >> ret page
      | [] =>
          log "在现有上下文中创建新页面" >>
          await (context_newPage context)
      end
  | [] =>
      log "创建新的浏览器上下文和页面" >>
      let* context := await (browser_newContext browser (1280, 800)%Z) in
      await (context_newPage context)
  end.

(** ** Publish configuration and helpers *)

Record PublishConfig : Type := mkConfig {
  imagePaths : option (list string);   (* array of image paths or URLs *)
  imagePath : option string;           (* single image path, kept for compatibility *)
  title : string;
  content : string;
  taskId : option string;
}.

(** [https.get(url, ...)] up to the event that settles the promise, and
    [response.pipe(file)] up to ['finish']. *)
Definition httpsGet (url : string) : M HttpOutcome :=
  fun w => let '(o, h) := https_get url (host w) in (Ok o, with_host h w).
Definition pipeToFile (dest body : string) : M unit :=
  modify (fun w => with_files (<[dest := File body]> (files w)) w).

(** The promise of [downloadImage].  The write stream is opened first, so
    [dest] exists (empty) before the request is answered.  Only the
    ['error'] handler of the request unlinks it. *)
Definition downloadImage (url dest : string) : M unit :=
  createWriteStream dest >>
  let* outcome := httpsGet url in
  match outcome with
  | Response statusCode statusMessage body =>
      if (statusCode =? 200)%Z
      then pipeToFile dest body
      else throw ("Failed to download image: " +:+ pretty statusCode +:+ " " +:+ statusMessage)
  | RequestError message => unlink dest >> throw message
  | RequestThrows message => throw message
  end.

(** ** Main publish flow: image processing *)

Definition tmpDir : string := Js.path_join tmpdir "auto-tauri-xhs".

(** One turn of the [for] loop over [sourceImagePaths]: the value pushed
    onto [actualImagePaths] for index [i], or the exception that ends the
    run.  [total] is [sourceImagePaths.length]. *)
Definition processImage (total i : nat) (sourcePath : string) : M string :=
  log ("Processing image " +:+ pretty (S i) +:+ "/" +:+ pretty total +:+ ": "
       +:+ Js.substring0 50 sourcePath +:+ "...") >>
  let* actualPath :=
    if Js.startsWith "http" sourcePath then
      let* now := Date_now in
      let actualPath :=
        Js.path_join tmpDir ("publish_" +:+ pretty now +:+ "_" +:+ pretty i +:+ ".png") in
      try_catch
        (downloadImage sourcePath actualPath >>
         log ("Downloaded image " +:+ pretty (S i)))
        (fun message =>
           throw ("Failed to download image " +:+ pretty (S i) +:+ ": " +:+ message)) >>
      ret actualPath
    else if Js.startsWith "data:image" sourcePath then
      try_catch
        (match DataUrl.matchDataUrl sourcePath with
         | None => throw "Invalid Base64 image format"
         | Some (subtype, base64Data) =>
             let ext := if String.eqb subtype "jpeg" then "jpg" else subtype in
             let buffer := base64_decode base64Data in
             let* now := Date_now in
             let actualPath :=
               Js.path_join tmpDir
                 ("publish_base64_" +:+ pretty now +:+ "_" +:+ pretty i +:+ "." +:+ ext) in
             writeFileSync actualPath buffer >>
             log ("Saved Base64 image " +:+ pretty (S i) +:+ " to: " +:+ actualPath) >>
             ret actualPath
         end)
        (fun message =>
           throw ("Failed to process Base64 image " +:+ pretty (S i) +:+ ": " +:+ message))
    else ret sourcePath in
  let* present := existsSync actualPath in
  if negb present then throw ("Image file not found: " +:+ actualPath)
  else ret actualPath.

(** The [for] loop: [i] is the index of the head of [rest] and
    [actualImagePaths] what has been pushed so far. *)
Fixpoint processImages (total i : nat) (rest actualImagePaths : list string)
    : M (list string) :=
  match rest with
  | [] => ret actualImagePaths
  | sourcePath :: rest' =>
      let* actualPath := processImage total i sourcePath in
      processImages total (S i) rest' (actualImagePaths ++ [actualPath])
  end.

(** Choice of the source list, then the loop. *)
Definition selectSources (config : PublishConfig) : M (list string) :=
  match imagePaths config with
  | Some (first :: others) =>
      log ("Processing " +:+ pretty (length (first :: others)) +:+ " images from imagePaths array") >>
      ret (first :: others)
  | _ =>
      match imagePath config with
      | Some single =>
          if Js.truthy single then log "Using single imagePath" >> ret [single]
          else throw "Image path is required for XHS publish. Please provide imagePaths or imagePath."
      | None =>
          throw "Image path is required for XHS publish. Please provide imagePaths or imagePath."
      end
  end.

Definition ingest (sourceImagePaths : list string) : M (list string) :=
  let* present := existsSync tmpDir in
  (if negb present then mkdirSync tmpDir else ret tt) >>
  let* actualImagePaths :=
    processImages (length sourceImagePaths) 0 sourceImagePaths [] in
  log ("All " +:+ pretty (length actualImagePaths) +:+ " images processed successfully") >>
  ret actualImagePaths.

(** ** Main publish flow: the page *)

Definition dquote : string := String (ascii_of_nat 34) EmptyString.

Definition PUBLISH_URL : string := "https://creator.xiaohongshu.com/publish/publish".

Definition checkPublishPage (page : Page) : M bool :=
  gets (fun w => Js.includes "/publish/publish" (page_url page (chrome w))).

(** The [while (!checkPublishPage())] loop.  Its exit depends on the wall
    clock; [fuel] bounds the number of turns the model follows. *)
Fixpoint awaitPublishPage (fuel : nat) (page : Page) (startTime : Z) : M unit :=
  let* there := checkPublishPage page in
  if there then ret tt
  else
    match fuel with
    | O => diverge
    | S fuel' =>
        let* now := Date_now in
        if (now - startTime >? 120000)%Z
        then throw "Timeout waiting for login. Please reach the publish page manually."
        else
          try_catch
            (await (page_wait page (WaitForURL "**/publish/publish" 5000)))
            (fun _ =>
               let* there' := checkPublishPage page in
               if negb there'
               then log "Still waiting for you to reach the Publish page... (Please log in)"
               else ret tt) >>
          awaitPublishPage fuel' page startTime
    end.

Definition reachPublishPage (fuel : nat) (page : Page) : M unit :=
  log "Navigating to Xiaohongshu Creator Center..." >>
  await (page_goto page PUBLISH_URL "networkidle" 60000) >>
  let* there := checkPublishPage page in
  if negb there then
    log "--- ACTION REQUIRED ---" >>
    log "Waiting for user to reach the Publish page..." >>
    let* startTime := Date_now in
    awaitPublishPage fuel page startTime >>
    log "Target page detected! Proceeding..."
  else ret tt.

(** Seconds to wait after [setInputFiles], for [n] uploaded images. *)
Definition waitTime (n : nat) : Z := Z.min (30 + (Z.of_nat n - 1) * 5) 60.

Definition uploadImages (page : Page) (actualImagePaths : list string) : M unit :=
  log "Looking for upload area..." >>
  let imageTab := FirstOf (GetByText "上传图文" true) in
  let* tabVisible := await (locator_isVisible page imageTab None) in
  (if tabVisible then
     log "Clicking '上传图文' tab..." >>
     await (locator_dispatchEvent page imageTab "click") >>
     waitForTimeout page 2000
   else ret tt) >>
  log ("Uploading " +:+ pretty (length actualImagePaths) +:+ " images...") >>
  let fileInput := Css ("input[type=" +:+ dquote +:+ "file" +:+ dquote +:+ "]") in
  await (page_wait page (LocatorWaitFor fileInput "attached" 30000)) >>
  await (locator_setInputFiles page fileInput actualImagePaths) >>
  let seconds := waitTime (length actualImagePaths) in
  log ("Waiting " +:+ pretty seconds +:+ " seconds for initial upload processing ("
       +:+ pretty (length actualImagePaths) +:+ " images)...") >>
  waitForTimeout page (seconds * 1000).

Definition newline : string := String (ascii_of_nat 10) EmptyString.

Definition fillForm (page : Page) (config : PublishConfig) : M unit :=
  log "Filling title and content..." >>
  let titleInput := Css ("input[placeholder*=" +:+ dquote +:+ "标题" +:+ dquote +:+ "]") in
  await (locator_fill page titleInput (title config)) >>
  let combinedContent := title config +:+ newline +:+ content config in
  let contentArea := Css "#post-textarea" in
  let* n := await (locator_count page contentArea) in
  (if (0 <? n)%nat then await (locator_fill page contentArea combinedContent)
   else
     await (keyboard_press page "Tab") >>
     await (keyboard_type page combinedContent)) >>
  log "Ready to publish!!!!!!".

(** ** Main publish flow: retry logic for the publish button *)

Definition maxRetries : Z := 3.

Definition publishButton : Locator := GetByRole "button" "发布" true.
Definition publishButtonFallback : Locator := GetByText "发布" true.
Definition publishNoteBtn : Locator := GetByText "发布笔记" true.

Definition uploadPopupMessages : list string :=
  ["图片上传中"; "请稍后"; "正在处理"; "上传中"].
Definition additionalSuccessTexts : list string :=
  ["已发布"; "成功"; "发布完成"; "笔记已发布"].
Definition errorMessages : list string :=
  ["发布失败"; "请稍后再试"; "网络错误"; "请先登录"; "内容违规"; "审核不通过"].

Definition clickPublish (page : Page) : M unit :=
  let* main := await (locator_isVisible page publishButton None) in
  if main then
    await (locator_click page publishButton) >>
    log "Clicked main '发布' button"
  else
    let* fallback := await (locator_isVisible page publishButtonFallback None) in
    if fallback then
      await (locator_click page publishButtonFallback) >>
      log "Clicked fallback '发布' text button"
    else
      let* note := await (locator_isVisible page publishNoteBtn None) in
      if note then
        await (locator_click page publishNoteBtn) >>
        log "Clicked '发布笔记' button"
      else throw "Publish button not found".

(** The scan for an upload popup.  Each turn is a [try] with an empty
    [catch]: the result of a turn is whether its [break] was reached, so
    an exception after the popup was seen lets the scan go on. *)
Fixpoint checkUploadPopup (page : Page) (msgs : list string) : M unit :=
  match msgs with
  | [] => ret tt
  | msg :: rest =>
      let* broke :=
        try_catch
          (let* visible := await (locator_isVisible page (GetByText msg false) (Some 1000%Z)) in
           if visible then
             log ("Detected upload popup: " +:+ dquote +:+ msg +:+ dquote
                  +:+ ", waiting 3 seconds...") >>
             waitForTimeout page 3000 >>
             log "Re-clicking publish button after upload popup..." >>
             (let* main := await (locator_isVisible page publishButton None) in
              if main then
                await (locator_click page publishButton) >>
                log "Re-clicked main '发布' button"
              else
                let* fallback := await (locator_isVisible page publishButtonFallback None) in
                if fallback then
                  await (locator_click page publishButtonFallback) >>
                  log "Re-clicked fallback '发布' text button"
                else ret tt) >>
             ret true
           else ret false)
          (fun _ => ret false) in
      if broke then ret tt else checkUploadPopup page rest
  end.

(** The body of the [try] around [Promise.race]: it ends normally exactly
    when the promise that settles first is fulfilled. *)
Definition successRace (page : Page) : M unit :=
  let* url := gets (fun w => page_url page (chrome w)) in
  log ("Current URL before waiting: " +:+ url) >>
  let* winner :=
    await (page_race page
             (LocatorWaitFor (GetByText "发布成功" false) "visible" 8000)
             (LocatorWaitFor (GetByText "发布笔记成功" false) "visible" 8000)
             (WaitForURL "**/note/**" 8000)) in
  let* result :=
    match winner with
    | Slot0 => log "Detected: '发布成功' text appeared" >> ret "text_success"
    | Slot1 => log "Detected: '发布笔记成功' text appeared" >> ret "text_note_success"
    | Slot2 =>
        let* url' := gets (fun w => page_url page (chrome w)) in
        log ("Detected: URL changed to note page: " +:+ url') >> ret "url_change"
    end in
  log ("Success detected via: " +:+ result).

(** Rescan for success wording the race does not wait for: the new value
    of [publishSuccess]. *)
Fixpoint scanSuccessTexts (page : Page) (texts : list string) : M bool :=
  match texts with
  | [] => ret false
  | successText :: rest =>
      let* found :=
        try_catch
          (let* visible :=
             await (locator_isVisible page (GetByText successText false) (Some 500%Z)) in
           if visible then
             log ("Found alternative success text: " +:+ dquote +:+ successText +:+ dquote) >>
             ret true
           else ret false)
          (fun _ => ret false) in
      if found then ret true else scanSuccessTexts page rest
  end.

(** Scan for platform error wording: the final value of [errorDetected]. *)
Fixpoint scanErrorMessages (page : Page) (msgs : list string) : M bool :=
  match msgs with
  | [] => ret false
  | errMsg :: rest =>
      let* found :=
        try_catch
          (let* visible :=
             await (locator_isVisible page (GetByText errMsg false) (Some 500%Z)) in
           if visible then log ("Error message detected: " +:+ errMsg) >> ret true
           else ret false)
          (fun _ => ret false) in
      if found then ret true else scanErrorMessages page rest
  end.

Definition dumpPageState (page : Page) : M unit :=
  log "All attempts exhausted. Dumping page state..." >>
  let* url := gets (fun w => page_url page (chrome w)) in
  log ("Final URL: " +:+ url) >>
  try_catch
    (let* pageTitle := await (page_title page) in log ("Page title: " +:+ pageTitle))
    (fun _ => ret tt) >>
  try_catch
    (let* pageText := await (page_innerText page "body") in
     log ("Page Content (first 2000 chars):" +:+ newline +:+ Js.substring0 2000 pageText))
    (fun message => log ("Failed to get page text: " +:+ message)).

(** First statements of the [catch] of the race: what is logged about
    the failed wait.  Nothing here can throw. *)
Definition reportRaceFailure (page : Page) (attempt : Z) (message : string) : M unit :=
  log ("Attempt " +:+ pretty attempt +:+ ": Success message not detected. Error: " +:+ message) >>
  let* url := gets (fun w => page_url page (chrome w)) in
  log ("Current URL after timeout: " +:+ url) >>
  try_catch
    (let* buttons := await (locator_allTextContents page (Css "button")) in
     log ("Visible buttons: " +:+ Js.sliceJoin 10 ", " buttons))
    (fun _ => ret tt).

(** The [catch] of the race: the value [publishSuccess] has when the
    attempt ends.  [errorDetected] is assigned and not read again. *)
Definition afterRaceFailure (page : Page) (attempt : Z) (message : string) : M bool :=
  reportRaceFailure page attempt message >>
  let* publishSuccess := scanSuccessTexts page additionalSuccessTexts in
  if publishSuccess then ret true
  else
    let* errorDetected := scanErrorMessages page errorMessages in
    (if (attempt <? maxRetries)%Z then
       log "Waiting 3 seconds before retry..." >>
       waitForTimeout page 3000
     else dumpPageState page) >>
    ret false.

(** First half of a turn of the [for] loop: click, then the popup check. *)
Definition submit (page : Page) (attempt : Z) : M unit :=
  log ("Publish attempt " +:+ pretty attempt +:+ "/" +:+ pretty maxRetries +:+ "...") >>
  clickPublish page >>
  log "Clicked publish button, checking for upload popup..." >>
  checkUploadPopup page uploadPopupMessages >>
  log "Waiting for confirmation...".

(** One turn of the [for] loop: the value of [publishSuccess] after it. *)
Definition publishAttempt (page : Page) (attempt : Z) : M bool :=
  submit page attempt >>
  try_catch (successRace page >> ret true) (afterRaceFailure page attempt).

(** [for (attempt = 1; attempt <= maxRetries && !publishSuccess; attempt++)],
    entered with [left = maxRetries - attempt + 1] turns to go. *)
Fixpoint publishLoop (page : Page) (left : nat) (attempt : Z) : M bool :=
  match left with
  | O => ret false
  | S left' =>
      let* publishSuccess := publishAttempt page attempt in
      if publishSuccess then ret true
      else publishLoop page left' (attempt + 1)
  end.

(** ** Main publish flow *)

Definition resultLine (config : PublishConfig) (status message : string) : json :=
  JObj (optional "taskId" (taskId config)
        ++ [("status", JStr status); ("data", JObj [("message", JStr message)])]).

(** From [try {] to the retry loop: navigation, upload, form. *)
Definition prepare (fuel : nat) (config : PublishConfig) (page : Page)
    (actualImagePaths : list string) : M unit :=
  reachPublishPage fuel page >>
  uploadImages page actualImagePaths >>
  fillForm page config.

(** From the end of the retry loop to [} catch]. *)
Definition conclude (config : PublishConfig) (page : Page) (publishSuccess : bool) : M unit :=
  waitForTimeout page 2000 >>
  if publishSuccess
  then console_log (resultLine config "success" "发布成功！")
  else console_log (resultLine config "success" "发布操作已执行，请检查小红书后台确认。").

(** Everything between [try {] and [} catch]. *)
Definition workflow (fuel : nat) (config : PublishConfig) (page : Page)
    (actualImagePaths : list string) : M unit :=
  prepare fuel config page actualImagePaths >>
  let* publishSuccess := publishLoop page (Z.to_nat maxRetries) 1 in
  conclude config page publishSuccess.

Definition installHint : string :=
  if String.eqb platform "win32"
  then "请访问 https://www.google.cn/chrome/ 下载安装 Chrome 浏览器"
  else "请访问 https://www.google.cn/chrome/ 下载安装 Chrome 浏览器，或运行: brew install --cask google-chrome".

(** From the top of [runPublish] to the choice of the source list. *)
Definition preflight (config : PublishConfig) : M (list string) :=
  let* found := getChromePath in
  match found with
  | None => throw ("未检测到 Chrome 浏览器。" +:+ installHint)
  | Some chromePath =>
      log ("Found Chrome at: " +:+ chromePath) >>
      selectSources config
  end.

(** Everything before [try {]: the images, then the browser and the page. *)
Definition acquire (config : PublishConfig) : M (Browser * Page * list string) :=
  let* sourceImagePaths := preflight config in
  let* actualImagePaths := ingest sourceImagePaths in
  log "Initializing CDP Stealth browser connection..." >>
  let* browser := connectCDP in
  let* page := getOrCreatePage browser in
  ret (browser, page, actualImagePaths).

(** The [catch] and the [finally] of [runPublish]. *)
Definition reportFailure (config : PublishConfig) (message : string) : M unit :=
  log ("Error: " +:+ message) >>
  console_log (resultLine config "failed" message).

Definition disconnect (browser : Browser) : M unit :=
  log "Disconnecting from browser (browser remains open)..." >>
  modify (fun w => with_chrome (browser_close browser (chrome w)) w).

Definition runPublish (fuel : nat) (config : PublishConfig) : M unit :=
  let* session := acquire config in
  let '(browser, page, actualImagePaths) := session in
  try_catch_finally
    (workflow fuel config page actualImagePaths)
    (reportFailure config)
    (disconnect browser).

(** ** Entry point, standard-input mode

    [main] with a configuration already parsed from the first non-blank
    line: the exit code, with the [error] variant of the result line when
    [runPublish] throws. *)
Definition errorLine (config : PublishConfig) (message : string) : json :=
  JObj (optional "taskId" (taskId config)
        ++ [("status", JStr "failed"); ("error", JStr message)]).

Definition main_stdin (fuel : nat) (config : PublishConfig) : M Z :=
  try_catch
    (runPublish fuel config >> ret 0%Z)
    (fun message =>
       log ("Execution error: " +:+ message) >>
       console_log (errorLine config message) >>
       ret 1%Z).

(** ** Entry point, command-line mode

    [main] when the process is given arguments: [args[0]] is the single
    image path, [args[1]] the title, [args[2] || ''] the content; there is
    no [taskId].  Whatever [runPublish] throws goes to [console.error],
    kept here as the message alone.  The title is taken as given, so the
    model starts from two arguments. *)
Definition console_error (text : string) : M unit :=
  modify (fun w => with_stderr (stderr w ++ [text]) w).

Definition main_cli (fuel : nat) (arg0 arg1 : string) (more : list string) : M unit :=
  let content :=
    match more with
    | arg2 :: _ => if Js.truthy arg2 then arg2 else EmptyString
    | [] => EmptyString
    end in
  let config := mkConfig None (Some arg0) arg1 content None in
  try_catch (runPublish fuel config) console_error.

End Agent.

(** ** Predicates used by the statements *)

(** The character [c] does not occur in [s]. *)
Fixpoint lacks (c : ascii) (s : string) : bool :=
  match s with
  | EmptyString => true
  | String a rest => negb (Ascii.eqb a c) && lacks c rest
  end.

Section Predicates.

Context `{env : Env}.

(** [m] leaves the component [f] of the world as it found it, however
    it ends. *)
Definition keeps {X A : Type} (f : World -> X) (m : M A) : Prop :=
  forall w, f (snd (m w)) = f w.

(** [path] is what the loop of [runPublish] pushes for the reference
    [sourcePath] at index [i], in some state of the world. *)
Definition resolves (total i : nat) (sourcePath path : string) : Prop :=
  exists w w', processImage total i sourcePath w = (Ok path, w').

(** [m] ends, with a value or an exception, from every world. *)
Definition halts {A : Type} (m : M A) : Prop :=
  forall w, fst (m w) <> Diverge.

(** The message of the result line, by the verdict of the retry loop. *)
Definition confirmation (publishSuccess : bool) : string :=
  if publishSuccess then "发布成功！" else "发布操作已执行，请检查小红书后台确认。".

(** The world after [log(msg)]. *)
Definition logged (msg : string) (w : World) : World :=
  with_stderr (stderr w ++ ["[XHS Agent] " +:+ msg]) w.

(** [m] always ends with a value: it neither throws nor runs on. *)
Definition never_throws {A : Type} (m : M A) : Prop :=
  forall w, exists a w', m w = (Ok a, w').

(** Every reading of the clock is later than the one before. *)
Definition ticking_clock : Prop :=
  forall h, (fst (date_now h) < fst (date_now (snd (date_now h))))%Z.

(** The paths the agent itself creates: its temporary directory, what is
    inside it, and the browser profile directory. *)
Definition owned (p : string) : bool :=
  String.eqb p tmpDir
  || Js.startsWith (tmpDir +:+ "/") p
  || String.eqb p USER_DATA_DIR.

(** What the file system holds at [p]. *)
Definition at_path (p : string) (w : World) : option Node := files w !! p.

(** The URL of the liveness probe. *)
Definition probeUrl : string := CDP_ENDPOINT +:+ "/json/version".

(** One turn of the polling loop that finds the endpoint down, seen
    from the browser side: the probe, then 500 ms. *)
Definition failedPoll (c : Chrome) : Chrome :=
  elapse 500 (snd (fetch_ok probeUrl c)).

End Predicates.

(** ** A scripted environment

    A concrete [Env] on which the agent can be run: the clock counts up
    from a start value, one URL is served and every other one answers
    404, a browser with one context and one page is already listening,
    and the page shows a publish button plus the texts it is given. *)

Module Demo.

Definition served : string := "https://img.example/a.jpg".

Definition scripted (race : Settled Slot) (visibleTexts : list string) : Env := {|
  Host := Z;
  Chrome := unit;
  Browser := unit;
  Context := unit;
  Page := unit;
  homedir := "/Users/demo";
  tmpdir := "/tmp";
  platform := "darwin";
  base64_decode := fun s => s;
  date_now := fun h => (h, (h + 1)%Z);
  https_get := fun url h =>
    (if String.eqb url served then Response 200 "OK" "JFIF"
     else Response 404 "Not Found" EmptyString, h);
  fetch_ok := fun _ c => (Fulfilled true, c);
  on_spawn := fun _ c => c;
  elapse := fun _ c => c;
  connectOverCDP := fun _ c => (Fulfilled tt, c);
  browser_contexts := fun _ _ => [tt];
  context_pages := fun _ _ => [tt];
  context_newPage := fun _ c => (Fulfilled tt, c);
  browser_newContext := fun _ _ c => (Fulfilled tt, c);
  browser_close := fun _ c => c;
  page_goto := fun _ _ _ _ c => (Fulfilled tt, c);
  page_url := fun _ _ => "https://creator.xiaohongshu.com/publish/publish";
  page_wait := fun _ _ c => (Fulfilled tt, c);
  page_race := fun _ _ _ _ c => (race, c);
  locator_isVisible := fun _ l _ c =>
    (Fulfilled match l with
               | GetByRole _ _ _ => true
               | GetByText text _ => bool_decide (text ∈ visibleTexts)
               | _ => false
               end, c);
  locator_dispatchEvent := fun _ _ _ c => (Fulfilled tt, c);
  locator_click := fun _ _ c => (Fulfilled tt, c);
  locator_setInputFiles := fun _ _ _ c => (Fulfilled tt, c);
  locator_fill := fun _ _ _ c => (Fulfilled tt, c);
  locator_count := fun _ _ c => (Fulfilled 1%nat, c);
  locator_allTextContents := fun _ _ c => (Fulfilled ["发布"], c);
  keyboard_press := fun _ _ c => (Fulfilled tt, c);
  keyboard_type := fun _ _ c => (Fulfilled tt, c);
  page_title := fun _ c => (Fulfilled "小红书创作服务平台", c);
  page_innerText := fun _ _ c => (Fulfilled "发布笔记", c);
|}.

(** A host with Chrome installed and nothing else on disk. *)
Definition start (e : Env) (h : @Host e) (c : @Chrome e) : @World e :=
  mkWorld
    (<["/Applications/Google Chrome.app/Contents/MacOS/Google Chrome" := File "ELF"]> ∅)
    [] [] [] h c.

(** A page on which the first success text appears, and one on which
    no signal ever fires while the platform shows [发布失败]. *)
Definition cooperating : Env := scripted (Fulfilled Slot0) [].
Definition failing : Env := scripted (Rejected "Timeout 8000ms exceeded.") ["发布失败"].

Definition t0 : Z := 1700000000000.

(** The request of the end-to-end scenario, and two with remote images. *)
Definition request : PublishConfig :=
  mkConfig (Some ["data:image/png;base64,AAAA"]) None "T" "C" (Some "abc").
Definition remoteRequest : PublishConfig :=
  mkConfig (Some ["https://img.example/a.jpg"]) None "T" "C" None.
Definition brokenRequest : PublishConfig :=
  mkConfig (Some ["https://img.example/a.jpg"; "https://img.example/gone.gif"])
           None "T" "C" (Some "abc").

(** The worlds the cooperating run goes through. *)
Definition coop0 : @World cooperating := start cooperating t0 tt.
Definition coopPaths : list string :=
  ["/tmp/auto-tauri-xhs/publish_base64_1700000000000_0.png"].
Definition coop1 : @World cooperating :=
  Eval vm_compute in snd (@acquire cooperating request coop0).
Definition coop2 : @World cooperating :=
  Eval vm_compute in snd (@prepare cooperating 0 request tt coopPaths coop1).
Definition coop3 : @World cooperating :=
  Eval vm_compute in snd (@publishAttempt cooperating tt 1 coop2).
Definition coopEnd : @World cooperating :=
  Eval vm_compute in snd (@runPublish cooperating 0 request coop0).

(** The worlds the run on the failing page goes through. *)
Definition fail0 : @World failing := start failing t0 tt.
Definition failPaths : list string :=
  ["/tmp/auto-tauri-xhs/publish_1700000000000_0.png"].
Definition fail1 : @World failing :=
  Eval vm_compute in snd (@acquire failing remoteRequest fail0).
Definition fail2 : @World failing :=
  Eval vm_compute in snd (@prepare failing 0 remoteRequest tt failPaths fail1).
Definition fail3 : @World failing :=
  Eval vm_compute in snd (@publishAttempt failing tt 1 fail2).
Definition fail4 : @World failing :=
  Eval vm_compute in snd (@publishAttempt failing tt 2 fail3).
Definition fail5 : @World failing :=
  Eval vm_compute in snd (@submit failing tt 3 fail4).
Definition fail6 : @World failing :=
  Eval vm_compute in snd (@successRace failing tt fail5).
Definition fail7 : @World failing :=
  Eval vm_compute in
    snd (@reportRaceFailure failing tt 3 "Timeout 8000ms exceeded." fail6).
Definition fail8 : @World failing :=
  Eval vm_compute in snd (@scanSuccessTexts failing tt additionalSuccessTexts fail7).
Definition fail9 : @World failing :=
  Eval vm_compute in snd (@scanErrorMessages failing tt errorMessages fail8).
Definition fail10 : @World failing :=
  Eval vm_compute in snd (@publishAttempt failing tt 3 fail4).

(** The worlds of the run whose second image answers 404. *)
Definition brokenSources : list string :=
  ["https://img.example/a.jpg"; "https://img.example/gone.gif"].
Definition broken1 : @World failing :=
  Eval vm_compute in snd (@preflight failing brokenRequest fail0).
Definition brokenEnd : @World failing :=
  Eval vm_compute in snd (@ingest failing brokenSources broken1).

(** A host on which no browser listens at first.  The browser state
    counts the probes made and the milliseconds slept; the endpoint
    answers from probe number [upAfter] on, or never.  The page never
    leaves the login screen. *)
Definition booting (upAfter : option nat) : Env := {|
  Host := Z;
  Chrome := nat * Z;
  Browser := unit;
  Context := unit;
  Page := unit;
  homedir := "/Users/demo";
  tmpdir := "/tmp";
  platform := "win32";
  base64_decode := fun s => s;
  date_now := fun h => (h, (h + 1000)%Z);
  https_get := fun _ h => (RequestError "socket hang up", h);
  fetch_ok := fun _ c =>
    (match upAfter with
     | Some k => if (k <=? fst c)%nat then Fulfilled true else Rejected "ECONNREFUSED"
     | None => Rejected "ECONNREFUSED"
     end, (S (fst c), snd c));
  on_spawn := fun _ c => c;
  elapse := fun ms c => (fst c, (snd c + ms)%Z);
  connectOverCDP := fun _ c => (Fulfilled tt, c);
  browser_contexts := fun _ _ => [];
  context_pages := fun _ _ => [];
  context_newPage := fun _ c => (Fulfilled tt, c);
  browser_newContext := fun _ _ c => (Fulfilled tt, c);
  browser_close := fun _ c => c;
  page_goto := fun _ _ _ _ c => (Fulfilled tt, c);
  page_url := fun _ _ => "https://creator.xiaohongshu.com/login";
  page_wait := fun _ _ c => (Rejected "Timeout 5000ms exceeded.", c);
  page_race := fun _ _ _ _ c => (Rejected "Timeout 8000ms exceeded.", c);
  locator_isVisible := fun _ _ _ c => (Fulfilled false, c);
  locator_dispatchEvent := fun _ _ _ c => (Fulfilled tt, c);
  locator_click := fun _ _ c => (Fulfilled tt, c);
  locator_setInputFiles := fun _ _ _ c => (Fulfilled tt, c);
  locator_fill := fun _ _ _ c => (Fulfilled tt, c);
  locator_count := fun _ _ c => (Fulfilled 0%nat, c);
  locator_allTextContents := fun _ _ c => (Fulfilled [], c);
  keyboard_press := fun _ _ c => (Fulfilled tt, c);
  keyboard_type := fun _ _ c => (Fulfilled tt, c);
  page_title := fun _ c => (Rejected "closed", c);
  page_innerText := fun _ _ c => (Rejected "closed", c);
|}.

Definition down : Env := booting None.
Definition slow : Env := booting (Some 3%nat).

Definition down0 : @World down := start down t0 (0%nat, 0%Z).
Definition slow0 : @World slow := start slow t0 (0%nat, 0%Z).

(** A host without Chrome. *)
Definition bare : @World cooperating := @mkWorld cooperating ∅ [] [] [] t0 tt.

(** A page that shows no publish control. *)
Definition blank : Env := {|
  Host := Z;
  Chrome := unit;
  Browser := unit;
  Context := unit;
  Page := unit;
  homedir := "/Users/demo";
  tmpdir := "/tmp";
  platform := "darwin";
  base64_decode := fun s => s;
  date_now := fun h => (h, (h + 1)%Z);
  https_get := fun _ h => (RequestError "socket hang up", h);
  fetch_ok := fun _ c => (Fulfilled true, c);
  on_spawn := fun _ c => c;
  elapse := fun _ c => c;
  connectOverCDP := fun _ c => (Fulfilled tt, c);
  browser_contexts := fun _ _ => [tt];
  context_pages := fun _ _ => [tt];
  context_newPage := fun _ c => (Fulfilled tt, c);
  browser_newContext := fun _ _ c => (Fulfilled tt, c);
  browser_close := fun _ c => c;
  page_goto := fun _ _ _ _ c => (Fulfilled tt, c);
  page_url := fun _ _ => "https://creator.xiaohongshu.com/publish/publish";
  page_wait := fun _ _ c => (Fulfilled tt, c);
  page_race := fun _ _ _ _ c => (Rejected "Timeout 8000ms exceeded.", c);
  locator_isVisible := fun _ _ _ c => (Fulfilled false, c);
  locator_dispatchEvent := fun _ _ _ c => (Fulfilled tt, c);
  locator_click := fun _ _ c => (Fulfilled tt, c);
  locator_setInputFiles := fun _ _ _ c => (Fulfilled tt, c);
  locator_fill := fun _ _ _ c => (Fulfilled tt, c);
  locator_count := fun _ _ c => (Fulfilled 0%nat, c);
  locator_allTextContents := fun _ _ c => (Fulfilled [], c);
  keyboard_press := fun _ _ c => (Fulfilled tt, c);
  keyboard_type := fun _ _ c => (Fulfilled tt, c);
  page_title := fun _ c => (Fulfilled "t", c);
  page_innerText := fun _ _ c => (Fulfilled "b", c);
|}.

Definition blank0 : @World blank := start blank t0 tt.

Definition chromeBinary : string :=
  "/Applications/Google Chrome.app/Contents/MacOS/Google Chrome".

Definition chromeCommand : ChildProcess :=
  mkChild chromeBinary
    [ "--remote-debugging-port=9222";
      "--user-data-dir=/Users/demo/.auto-tauri/browser-profile";
      "--no-first-run";
      "--no-default-browser-check" ].

(** Requests without any image, and the budget of the login wait. *)
Definition emptyRequest : PublishConfig := mkConfig (Some []) None "T" "C" (Some "abc").
Definition loginBudget : nat := Z.to_nat 120001.

(** The worlds of the run on the page without a publish control. *)
Definition blank1 : @World blank :=
  Eval vm_compute in snd (@acquire blank request blank0).
Definition blank2 : @World blank :=
  Eval vm_compute in snd (@prepare blank 0 request tt coopPaths blank1).
Definition blankThrown : @World blank :=
  Eval vm_compute in snd (@workflow blank 0 request tt coopPaths blank1).

(** A page on which the note URL appears only after 33 s: the race of
    the first attempt is lost, that of the second is won.  The browser
    state is the time slept so far. *)
Definition eventually : Env := {|
  Host := Z;
  Chrome := Z;
  Browser := unit;
  Context := unit;
  Page := unit;
  homedir := "/Users/demo";
  tmpdir := "/tmp";
  platform := "darwin";
  base64_decode := fun s => s;
  date_now := fun h => (h, (h + 1)%Z);
  https_get := fun _ h => (RequestError "socket hang up", h);
  fetch_ok := fun _ c => (Fulfilled true, c);
  on_spawn := fun _ c => c;
  elapse := fun ms c => (c + ms)%Z;
  connectOverCDP := fun _ c => (Fulfilled tt, c);
  browser_contexts := fun _ _ => [tt];
  context_pages := fun _ _ => [tt];
  context_newPage := fun _ c => (Fulfilled tt, c);
  browser_newContext := fun _ _ c => (Fulfilled tt, c);
  browser_close := fun _ c => c;
  page_goto := fun _ _ _ _ c => (Fulfilled tt, c);
  page_url := fun _ _ => "https://creator.xiaohongshu.com/publish/publish";
  page_wait := fun _ _ c => (Fulfilled tt, c);
  page_race := fun _ _ _ _ c =>
    (if (33000 <=? c)%Z then Fulfilled Slot2 else Rejected "Timeout 8000ms exceeded.", c);
  locator_isVisible := fun _ l _ c =>
    (Fulfilled match l with GetByRole _ _ _ => true | _ => false end, c);
  locator_dispatchEvent := fun _ _ _ c => (Fulfilled tt, c);
  locator_click := fun _ _ c => (Fulfilled tt, c);
  locator_setInputFiles := fun _ _ _ c => (Fulfilled tt, c);
  locator_fill := fun _ _ _ c => (Fulfilled tt, c);
  locator_count := fun _ _ c => (Fulfilled 1%nat, c);
  locator_allTextContents := fun _ _ c => (Fulfilled ["发布"], c);
  keyboard_press := fun _ _ c => (Fulfilled tt, c);
  keyboard_type := fun _ _ c => (Fulfilled tt, c);
  page_title := fun _ c => (Fulfilled "t", c);
  page_innerText := fun _ _ c => (Fulfilled "b", c);
|}.

Definition later0 : @World eventually := start eventually t0 0%Z.
Definition later1 : @World eventually :=
  Eval vm_compute in snd (@acquire eventually request later0).
Definition later2 : @World eventually :=
  Eval vm_compute in snd (@prepare eventually 0 request tt coopPaths later1).
Definition later3 : @World eventually :=
  Eval vm_compute in snd (@publishLoop eventually tt 3 1 later2).

(** A page that shows [已发布] although the race is lost. *)
Definition quiet : Env := scripted (Rejected "Timeout 8000ms exceeded.") ["已发布"].
Definition quiet0 : @World quiet := start quiet t0 tt.
Definition quiet5 : @World quiet :=
  Eval vm_compute in snd (@submit quiet tt 1 quiet0).
Definition quiet6 : @World quiet :=
  Eval vm_compute in snd (@successRace quiet tt quiet5).
Definition quiet7 : @World quiet :=
  Eval vm_compute in
    snd (@reportRaceFailure quiet tt 1 "Timeout 8000ms exceeded." quiet6).

(** The world in which the download of the only image has failed. *)
Definition downThrown : @World down :=
  Eval vm_compute in snd (@acquire down remoteRequest down0).

(** The world in which the slow endpoint has come up, and the one in
    which the cooperating page has been reached. *)
Definition slowUp : @World slow :=
  Eval vm_compute in snd (@pollCDP slow 20 slow0).
Definition coopReached : @World cooperating :=
  Eval vm_compute in snd (@reachPublishPage cooperating 0 tt coop1).

End Demo.

(** * Properties *)

(** ** The pure helpers on small inputs *)

Example match_png :
  DataUrl.matchDataUrl "data:image/png;base64,AAAA" = Some ("png", "AAAA").
Proof. reflexivity. Qed.

Example match_rejects_svg_xml :
  DataUrl.matchDataUrl "data:image/svg+xml;base64,AAAA" = None.
Proof. reflexivity. Qed.

Example match_rejects_empty_payload :
  DataUrl.matchDataUrl "data:image/png;base64," = None.
Proof. reflexivity. Qed.

Example includes_publish_page :
  Js.includes "/publish/publish" "https://creator.xiaohongshu.com/publish/publish" = true.
Proof. reflexivity. Qed.

Example waitTime_samples :
  (waitTime 1, waitTime 2, waitTime 7, waitTime 8, waitTime 30)
  = (30, 35, 60, 60, 60)%Z.
Proof. reflexivity. Qed.

Section Frames.

Context `{env : Env}.

Lemma keeps_ret {X A} (f : World -> X) (a : A) : keeps f (ret a).
Proof. intros w; reflexivity. Qed.

Lemma keeps_throw {X A} (f : World -> X) (e : string) : keeps f (throw (A := A) e).
Proof. intros w; reflexivity. Qed.

Lemma keeps_diverge {X A} (f : World -> X) : keeps f (diverge (A := A)).
Proof. intros w; reflexivity. Qed.

Lemma keeps_gets {X A} (f : World -> X) (g : World -> A) : keeps f (gets g).
Proof. intros w; reflexivity. Qed.

Lemma keeps_bind {X A B} (f : World -> X) (m : M A) (k : A -> M B) :
  keeps f m -> (forall a, keeps f (k a)) -> keeps f (bind m k).
Proof.
  intros Hm Hk w. unfold bind. specialize (Hm w).
  destruct (m w) as [[a|e|] w1]; simpl in *; try assumption.
  rewrite Hk. assumption.
Qed.

Lemma keeps_try_catch {X A} (f : World -> X) (m : M A) (h : string -> M A) :
  keeps f m -> (forall e, keeps f (h e)) -> keeps f (try_catch m h).
Proof.
  intros Hm Hh w. unfold try_catch. specialize (Hm w).
  destruct (m w) as [[a|e|] w1]; simpl in *; try assumption.
  rewrite Hh. assumption.
Qed.

Lemma keeps_try_catch_finally {X A} (f : World -> X) (m : M A)
    (h : string -> M A) (c : M unit) :
  keeps f m -> (forall e, keeps f (h e)) -> keeps f c ->
  keeps f (try_catch_finally m h c).
Proof.
  intros Hm Hh Hc w. unfold try_catch_finally.
  pose proof (keeps_try_catch f m h Hm Hh w) as Ht.
  destruct (try_catch m h w) as [[a|e|] w1]; simpl in *; try assumption;
    specialize (Hc w1); destruct (c w1) as [[[]|e'|] w2]; simpl in *; congruence.
Qed.

(** *** What each function leaves alone

    [f] is any observation of the world.  Each lemma below needs [f] to
    ignore only the components its function writes, so the same lemma
    serves for standard output, for the browser and for the process
    list. *)

Variable X : Type.
Variable f : World -> X.
Hypothesis f_stderr : forall e w, f (with_stderr e w) = f w.
Hypothesis f_files : forall m w, f (with_files m w) = f w.
Hypothesis f_host : forall h w, f (with_host h w) = f w.
Hypothesis f_chrome : forall c w, f (with_chrome c w) = f w.
Hypothesis f_spawned : forall p w, f (with_spawned p w) = f w.

Create HintDb frames.

Ltac frame_prim :=
  let w := fresh "w" in
  intros w;
  cbv [log modify gets await sleep waitForTimeout Date_now existsSync mkdirSync
       writeFileSync createWriteStream unlink httpsGet pipeToFile spawn disconnect];
  repeat match goal with
         | |- context [match ?c with _ => _ end] => destruct c
         end;
  simpl;
  rewrite ?f_stderr, ?f_files, ?f_host, ?f_chrome, ?f_spawned;
  reflexivity.

Ltac frame :=
  repeat first
    [ assumption
    | solve [auto 2 with frames]
    | apply keeps_ret | apply keeps_throw | apply keeps_diverge | apply keeps_gets
    | match goal with
      | |- keeps _ (if ?b then _ else _) => destruct b
      | |- keeps _ (match ?x with _ => _ end) => destruct x
      end
    | apply keeps_bind; [| intros ?]
    | apply keeps_try_catch; [| intros ?]
    | solve [frame_prim] ].

Lemma keeps_log msg : keeps f (log msg).
Proof. frame_prim. Qed.

Lemma keeps_await {A} (call : Chrome -> Settled A * Chrome) : keeps f (await call).
Proof. frame_prim. Qed.

Lemma keeps_waitForTimeout page ms : keeps f (waitForTimeout page ms).
Proof. frame_prim. Qed.

Lemma keeps_Date_now : keeps f Date_now.
Proof. frame_prim. Qed.

Hint Resolve keeps_log keeps_await keeps_waitForTimeout keeps_Date_now : frames.

Lemma keeps_getChromePath : keeps f getChromePath.
Proof. unfold getChromePath. frame. Qed.

Lemma keeps_isCDPAvailable : keeps f isCDPAvailable.
Proof. unfold isCDPAvailable. frame. Qed.
Hint Resolve keeps_getChromePath keeps_isCDPAvailable : frames.

Lemma keeps_attach : keeps f attach.
Proof. unfold attach. frame. Qed.
Hint Resolve keeps_attach : frames.

Lemma keeps_pollCDP n : keeps f (pollCDP n).
Proof. induction n; simpl; frame. Qed.
Hint Resolve keeps_pollCDP : frames.

Lemma keeps_launchChrome : keeps f launchChrome.
Proof. unfold launchChrome. frame. Qed.
Hint Resolve keeps_launchChrome : frames.

Lemma keeps_connectCDP : keeps f connectCDP.
Proof. unfold connectCDP. frame. Qed.

Lemma keeps_getOrCreatePage browser : keeps f (getOrCreatePage browser).
Proof. unfold getOrCreatePage. frame. Qed.
Hint Resolve keeps_connectCDP keeps_getOrCreatePage : frames.

Lemma keeps_downloadImage url dest : keeps f (downloadImage url dest).
Proof. unfold downloadImage. frame. Qed.
Hint Resolve keeps_downloadImage : frames.

Lemma keeps_processImage total i src : keeps f (processImage total i src).
Proof. unfold processImage. frame. Qed.
Hint Resolve keeps_processImage : frames.

Lemma keeps_processImages total rest : forall i acc, keeps f (processImages total i rest acc).
Proof. induction rest; intros; simpl; frame. Qed.
Hint Resolve keeps_processImages : frames.

Lemma keeps_selectSources config : keeps f (selectSources config).
Proof. unfold selectSources. frame. Qed.
Hint Resolve keeps_selectSources : frames.

Lemma keeps_ingest srcs : keeps f (ingest srcs).
Proof. unfold ingest. frame. Qed.

Lemma keeps_preflight config : keeps f (preflight config).
Proof. unfold preflight. frame. Qed.
Hint Resolve keeps_ingest keeps_preflight : frames.

Lemma keeps_acquire config : keeps f (acquire config).
Proof. unfold acquire. frame. Qed.

Lemma keeps_awaitPublishPage fuel page startTime :
  keeps f (awaitPublishPage fuel page startTime).
Proof. induction fuel; simpl; frame. Qed.
Hint Resolve keeps_awaitPublishPage : frames.

Lemma keeps_reachPublishPage fuel page : keeps f (reachPublishPage fuel page).
Proof. unfold reachPublishPage. frame. Qed.

Lemma keeps_uploadImages page paths : keeps f (uploadImages page paths).
Proof. unfold uploadImages. frame. Qed.

Lemma keeps_fillForm page config : keeps f (fillForm page config).
Proof. unfold fillForm. frame. Qed.
Hint Resolve keeps_reachPublishPage keeps_uploadImages keeps_fillForm : frames.

Lemma keeps_prepare fuel config page paths : keeps f (prepare fuel config page paths).
Proof. unfold prepare. frame. Qed.

Lemma keeps_clickPublish page : keeps f (clickPublish page).
Proof. unfold clickPublish. frame. Qed.
Hint Resolve keeps_clickPublish : frames.

Lemma keeps_checkUploadPopup page msgs : keeps f (checkUploadPopup page msgs).
Proof. induction msgs; simpl; frame. Qed.
Hint Resolve keeps_checkUploadPopup : frames.

Lemma keeps_submit page attempt : keeps f (submit page attempt).
Proof. unfold submit. frame. Qed.

Lemma keeps_successRace page : keeps f (successRace page).
Proof. unfold successRace. frame. Qed.

Lemma keeps_scanSuccessTexts page texts : keeps f (scanSuccessTexts page texts).
Proof. induction texts; simpl; frame. Qed.

Lemma keeps_scanErrorMessages page msgs : keeps f (scanErrorMessages page msgs).
Proof. induction msgs; simpl; frame. Qed.

Lemma keeps_dumpPageState page : keeps f (dumpPageState page).
Proof. unfold dumpPageState. frame. Qed.

Lemma keeps_reportRaceFailure page attempt message :
  keeps f (reportRaceFailure page attempt message).
Proof. unfold reportRaceFailure. frame. Qed.
Hint Resolve keeps_submit keeps_successRace keeps_scanSuccessTexts
  keeps_scanErrorMessages keeps_dumpPageState keeps_reportRaceFailure : frames.

Lemma keeps_afterRaceFailure page attempt message :
  keeps f (afterRaceFailure page attempt message).
Proof. unfold afterRaceFailure. frame. Qed.
Hint Resolve keeps_afterRaceFailure : frames.

Lemma keeps_publishAttempt page attempt : keeps f (publishAttempt page attempt).
Proof. unfold publishAttempt. frame. Qed.
Hint Resolve keeps_publishAttempt : frames.

Lemma keeps_publishLoop page left : forall attempt, keeps f (publishLoop page left attempt).
Proof. induction left; intros; simpl; frame. Qed.

Lemma keeps_disconnect browser : keeps f (disconnect browser).
Proof. unfold disconnect. frame. Qed.

End Frames.


(** ** Strings *)

Section StringFacts.

Import DataUrl.

Lemma strip_prefix_app (p s r : string) :
  strip_prefix p s = Some r -> s = p +:+ r.
Proof.
  revert s. induction p as [|a p IH]; intros s H; simpl in *.
  - injection H as ->. reflexivity.
  - destruct s as [|b s]; [discriminate |].
    destruct (Ascii.eqb a b) eqn:Hab; [| discriminate].
    apply Ascii.eqb_eq in Hab. subst b.
    rewrite (IH s H). reflexivity.
Qed.

Lemma span_letters_app (s run tail : string) :
  span_letters s = (run, tail) -> s = run +:+ tail.
Proof.
  revert run tail. induction s as [|a s IH]; intros run tail H; simpl in *.
  - injection H as <- <-. reflexivity.
  - destruct (is_letter a).
    + destruct (span_letters s) as [run' tail'].
      injection H as <- <-. simpl. rewrite (IH run' tail' eq_refl). reflexivity.
    + injection H as <- <-. reflexivity.
Qed.

Lemma span_letters_letters (s run tail : string) :
  span_letters s = (run, tail) -> all_letters run = true.
Proof.
  revert run tail. induction s as [|a s IH]; intros run tail H; simpl in *.
  - injection H as <- <-. reflexivity.
  - destruct (is_letter a) eqn:Ha.
    + destruct (span_letters s) as [run' tail'].
      injection H as <- <-. simpl. rewrite Ha. exact (IH run' tail' eq_refl).
    + injection H as <- <-. reflexivity.
Qed.

Lemma matchDataUrl_letters (s subtype payload : string) :
  matchDataUrl s = Some (subtype, payload) -> all_letters subtype = true.
Proof.
  unfold matchDataUrl.
  destruct (strip_prefix "data:image/" s) as [rest|]; [| discriminate].
  destruct (span_letters rest) as [run tail] eqn:Hrun.
  destruct run as [|a run]; [discriminate |].
  destruct (strip_prefix ";base64," tail) as [p|]; [| discriminate].
  destruct p as [|b p]; [discriminate |].
  destruct (dot_only (String b p)); [| discriminate].
  intros H. injection H as <- <-.
  exact (span_letters_letters _ _ _ Hrun).
Qed.

(** A match gives back the two parts it was cut from. *)
Lemma matchDataUrl_parts (s subtype payload : string) :
  matchDataUrl s = Some (subtype, payload) ->
  s = "data:image/" +:+ subtype +:+ ";base64," +:+ payload.
Proof.
  unfold matchDataUrl.
  destruct (strip_prefix "data:image/" s) as [rest|] eqn:Hhead; [| discriminate].
  destruct (span_letters rest) as [run tail] eqn:Hrun.
  destruct run as [|a run]; [discriminate |].
  destruct (strip_prefix ";base64," tail) as [p|] eqn:Hsep; [| discriminate].
  destruct p as [|b p]; [discriminate |].
  destruct (dot_only (String b p)); [| discriminate].
  intros H. injection H as <- <-.
  apply strip_prefix_app in Hhead, Hsep. apply span_letters_app in Hrun.
  subst. reflexivity.
Qed.

Lemma span_letters_run (run tail : string) :
  all_letters run = true ->
  span_letters tail = (EmptyString, tail) ->
  span_letters (run +:+ tail) = (run, tail).
Proof.
  intros Hrun Htail. induction run as [|a run IH]; [exact Htail |].
  simpl in Hrun. apply andb_true_iff in Hrun as [Ha Hrest].
  change (String a run +:+ tail) with (String a (run +:+ tail)).
  simpl. rewrite Ha, (IH Hrest). reflexivity.
Qed.

(** The pattern accepts every reference built from a subtype of
    letters and a payload on one line. *)
Lemma matchDataUrl_complete (subtype payload : string) :
  all_letters subtype = true ->
  subtype <> EmptyString ->
  payload <> EmptyString ->
  dot_only payload = true ->
  matchDataUrl ("data:image/" +:+ subtype +:+ ";base64," +:+ payload)
  = Some (subtype, payload).
Proof.
  intros Hletters Hsub Hpay Hdot. unfold matchDataUrl.
  change (strip_prefix "data:image/" ("data:image/" +:+ subtype +:+ ";base64," +:+ payload))
    with (Some (subtype +:+ ";base64," +:+ payload)).
  cbv beta iota.
  rewrite (span_letters_run subtype (";base64," +:+ payload) Hletters eq_refl).
  destruct subtype as [|a subtype]; [contradiction |].
  change (strip_prefix ";base64," (";base64," +:+ payload)) with (Some payload).
  cbv beta iota.
  destruct payload as [|b payload]; [contradiction |].
  rewrite Hdot. reflexivity.
Qed.

(** The two prefixes tested by the loop exclude each other. *)
Lemma data_prefix_not_http (s : string) :
  Js.startsWith "data:image" s = true -> Js.startsWith "http" s = false.
Proof.
  unfold Js.startsWith. destruct s as [|a s]; [discriminate |].
  change (String.prefix "data:image" (String a s))
    with (if ascii_dec "d" a then String.prefix "ata:image" s else false).
  change (String.prefix "http" (String a s))
    with (if ascii_dec "h" a then String.prefix "ttp" s else false).
  destruct (ascii_dec "d" a) as [<- | _]; [| discriminate].
  intros _. destruct (ascii_dec "h" "d"); [discriminate | reflexivity].
Qed.

End StringFacts.

(** ** Session manager *)

Section Behaviour.

Context `{env : Env}.

Lemma bind_ok {A B} (m : M A) (k : A -> M B) w b w' :
  bind m k w = (Ok b, w') <->
  exists a w1, m w = (Ok a, w1) /\ k a w1 = (Ok b, w').
Proof.
  unfold bind. split.
  - destruct (m w) as [[a|e|] w1]; intros H; try discriminate.
    exists a, w1. split; [reflexivity | exact H].
  - intros (a & w1 & -> & H). exact H.
Qed.

Lemma bind_throw {A B} (m : M A) (k : A -> M B) w e w' :
  bind m k w = (Throw e, w') <->
  m w = (Throw e, w') \/ exists a w1, m w = (Ok a, w1) /\ k a w1 = (Throw e, w').
Proof.
  unfold bind. split.
  - destruct (m w) as [[a|e0|] w1]; intros H; try discriminate.
    + right. exists a, w1. split; [reflexivity | exact H].
    + left. injection H as -> ->. reflexivity.
  - intros [-> | (a & w1 & -> & H)]; [reflexivity | exact H].
Qed.

(** C6.  When the probe of the CDP endpoint answers, [connectCDP] is the
    log line followed by the attach: [launchChrome] is not run, no
    process is spawned and nothing is created on disk. *)
Theorem connectCDP_running_browser_is_reused (w w1 : World) :
  isCDPAvailable w = (Ok true, w1) ->
  connectCDP w = attach (logged "检测到已运行的 Chrome，正在连接..." w1)
  /\ spawned (snd (connectCDP w)) = spawned w
  /\ files (snd (connectCDP w)) = files w.
Proof.
  intros Hprobe.
  assert (Hrun : connectCDP w = attach (logged "检测到已运行的 Chrome，正在连接..." w1)).
  { unfold connectCDP, bind. rewrite Hprobe. reflexivity. }
  rewrite Hrun. split; [reflexivity |].
  assert (Hs : spawned (snd (isCDPAvailable w)) = spawned w)
    by (apply keeps_isCDPAvailable; reflexivity).
  assert (Hf : files (snd (isCDPAvailable w)) = files w)
    by (apply keeps_isCDPAvailable; reflexivity).
  rewrite Hprobe in Hs, Hf. simpl in Hs, Hf.
  split.
  - rewrite keeps_attach by reflexivity. exact Hs.
  - rewrite keeps_attach by reflexivity. exact Hf.
Qed.

(** C7.  [getOrCreatePage] returns the first page of the first context
    when there is one, and then changes nothing but the log; with a
    context but no page it is [context.newPage()] on that first context;
    with no context it is [browser.newContext] with the 1280x800
    viewport followed by [newPage] on the new context. *)
Theorem getOrCreatePage_prefers_reuse (browser : Browser) (w : World) :
  match browser_contexts browser (chrome w) with
  | context :: _ =>
      match context_pages context (chrome w) with
      | page :: _ =>
          getOrCreatePage browser w = (Ok page, logged "使用现有页面" w)
      | [] =>
          getOrCreatePage browser w =
          await (context_newPage context) (logged "在现有上下文中创建新页面" w)
      end
  | [] =>
      getOrCreatePage browser w =
      bind (await (browser_newContext browser (1280, 800)%Z))
           (fun context => await (context_newPage context))
           (logged "创建新的浏览器上下文和页面" w)
  end.
Proof.
  unfold getOrCreatePage, bind, gets. simpl.
  destruct (browser_contexts browser (chrome w)) as [|context others]; [reflexivity |].
  simpl. destruct (context_pages context (chrome w)); reflexivity.
Qed.

(** ** Image ingestion *)

Lemma try_catch_ok {A} (m : M A) (h : string -> M A) w a w' :
  try_catch m h w = (Ok a, w') <->
  m w = (Ok a, w') \/ exists e w1, m w = (Throw e, w1) /\ h e w1 = (Ok a, w').
Proof.
  unfold try_catch. split.
  - destruct (m w) as [[a0|e|] w1]; intros H; try discriminate.
    + left. exact H.
    + right. exists e, w1. split; [reflexivity | exact H].
  - intros [-> | (e & w1 & -> & H)]; [reflexivity | exact H].
Qed.

Lemma log_run msg w : log msg w = (Ok tt, logged msg w).
Proof. reflexivity. Qed.

(** What a successful turn of the loop did for a reference that starts
    with [http]: the name was built from the clock and the index, the
    request was answered 200, and the file holds the body. *)
Lemma processImage_http total i src w path w' :
  Js.startsWith "http" src = true ->
  processImage total i src w = (Ok path, w') ->
  path = Js.path_join tmpDir
           ("publish_" +:+ pretty (fst (date_now (host w))) +:+ "_" +:+ pretty i +:+ ".png")
  /\ exists statusMessage body h,
       https_get src (snd (date_now (host w))) = (Response 200 statusMessage body, h)
       /\ files w' !! path = Some (File body).
Proof.
  intros Hhttp H. unfold processImage in H. rewrite Hhttp in H.
  apply bind_ok in H as ([] & w1 & Hlog & H).
  rewrite log_run in Hlog. injection Hlog as <-.
  apply bind_ok in H as (actualPath & w2 & Hbranch & H).
  apply bind_ok in Hbranch as (now & w3 & Hnow & Hbranch).
  unfold Date_now in Hnow. simpl in Hnow.
  destruct (date_now (host w)) as [t h0] eqn:Hclock.
  injection Hnow as <- <-.
  apply bind_ok in Hbranch as ([] & w4 & Hdl & Hret).
  injection Hret as <- <-.
  apply bind_ok in H as (present & w5 & Hex & H).
  injection Hex as <- <-.
  destruct (bool_decide _) eqn:Hpresent in H; simpl in H; [| discriminate].
  injection H as <- <-.
  split; [reflexivity |].
  apply try_catch_ok in Hdl as [Hdl | (e & w6 & _ & Habs)]; [| discriminate].
  apply bind_ok in Hdl as ([] & w6 & Hdl & Hlog).
  rewrite log_run in Hlog. injection Hlog as <-.
  unfold downloadImage in Hdl.
  apply bind_ok in Hdl as ([] & w7 & Hcreate & Hdl).
  injection Hcreate as <-.
  apply bind_ok in Hdl as (outcome & w8 & Hget & Hdl).
  unfold httpsGet in Hget. simpl in Hget.
  destruct (https_get src h0) as [o h1] eqn:Hanswer.
  injection Hget as <- <-.
  destruct o as [statusCode statusMessage body | message | message].
  - destruct (statusCode =? 200)%Z eqn:Hcode; [| discriminate].
    apply Z.eqb_eq in Hcode. subst statusCode.
    injection Hdl as <-.
    exists statusMessage, body, h1. split; [exact Hanswer |].
    simpl. apply lookup_insert_eq.
  - apply bind_ok in Hdl as ([] & w9 & _ & Habs). discriminate.
  - discriminate.
Qed.

(** C10.  A reference that starts with [http] and is resolved is stored
    in the temporary directory as [publish_<timestamp>_<index>.png],
    whatever the URL ends with and whatever the body is. *)
Theorem remote_image_is_named_png total i sourcePath w path w' :
  Js.startsWith "http" sourcePath = true ->
  processImage total i sourcePath w = (Ok path, w') ->
  (exists timestamp : Z,
     path = Js.path_join tmpDir
              ("publish_" +:+ pretty timestamp +:+ "_" +:+ pretty i +:+ ".png"))
  /\ is_Some (files w' !! path).
Proof.
  intros Hhttp H.
  destruct (processImage_http _ _ _ _ _ _ Hhttp H) as (-> & _ & body & _ & _ & Hfile).
  split; [eexists; reflexivity |].
  rewrite Hfile. eexists; reflexivity.
Qed.

(** What a successful turn of the loop did for a reference that starts
    with [data:image]: the pattern matched, and the decoded payload was
    written under a name built from the clock, the index and the first
    group. *)
Lemma processImage_data total i src w path w' :
  Js.startsWith "data:image" src = true ->
  processImage total i src w = (Ok path, w') ->
  exists subtype payload,
    DataUrl.matchDataUrl src = Some (subtype, payload)
    /\ path = Js.path_join tmpDir
                ("publish_base64_" +:+ pretty (fst (date_now (host w))) +:+ "_"
                 +:+ pretty i +:+ "."
                 +:+ (if String.eqb subtype "jpeg" then "jpg" else subtype))
    /\ files w' !! path = Some (File (base64_decode payload)).
Proof.
  intros Hdata H. unfold processImage in H.
  rewrite (data_prefix_not_http _ Hdata), Hdata in H.
  apply bind_ok in H as ([] & w1 & Hlog & H).
  rewrite log_run in Hlog. injection Hlog as <-.
  apply bind_ok in H as (actualPath & w2 & Hbranch & H).
  apply bind_ok in H as (present & w3 & Hex & H).
  injection Hex as <- <-.
  destruct (bool_decide _) eqn:Hpresent in H; simpl in H; [| discriminate].
  injection H as <- <-.
  apply try_catch_ok in Hbranch as [Hbranch | (e & w4 & _ & Habs)]; [| discriminate].
  destruct (DataUrl.matchDataUrl src) as [[subtype payload]|]; [| discriminate].
  exists subtype, payload. split; [reflexivity |].
  apply bind_ok in Hbranch as (now & w4 & Hnow & Hbranch).
  unfold Date_now in Hnow. simpl in Hnow.
  destruct (date_now (host w)) as [t h0].
  injection Hnow as <- <-.
  apply bind_ok in Hbranch as ([] & w5 & Hwrite & Hbranch).
  injection Hwrite as <-.
  apply bind_ok in Hbranch as ([] & w6 & Hlog & Hret).
  rewrite log_run in Hlog. injection Hlog as <-.
  injection Hret as <- <-.
  split; [reflexivity |].
  simpl. apply lookup_insert_eq.
Qed.

(** C8.  A reference that starts with [data:image] and is resolved has
    the form [data:image/<subtype>;base64,<payload>] with a subtype made
    of letters, and its file is named with the extension [jpg] when the
    subtype is [jpeg] and with the subtype itself otherwise. *)
Theorem inline_image_extension_from_subtype total i sourcePath w path w' :
  Js.startsWith "data:image" sourcePath = true ->
  processImage total i sourcePath w = (Ok path, w') ->
  exists subtype payload ext (timestamp : Z),
    sourcePath = "data:image/" +:+ subtype +:+ ";base64," +:+ payload
    /\ DataUrl.all_letters subtype = true
    /\ (subtype = "jpeg" -> ext = "jpg")
    /\ (subtype <> "jpeg" -> ext = subtype)
    /\ path = Js.path_join tmpDir
                ("publish_base64_" +:+ pretty timestamp +:+ "_" +:+ pretty i +:+ "." +:+ ext)
    /\ is_Some (files w' !! path).
Proof.
  intros Hdata H.
  destruct (processImage_data _ _ _ _ _ _ Hdata H)
    as (subtype & payload & Hmatch & -> & Hfile).
  exists subtype, payload, (if String.eqb subtype "jpeg" then "jpg" else subtype),
    (fst (date_now (host w))).
  split; [exact (matchDataUrl_parts _ _ _ Hmatch) |].
  split; [exact (matchDataUrl_letters _ _ _ Hmatch) |].
  split; [intros ->; reflexivity |].
  split.
  { intros Hne. destruct (String.eqb subtype "jpeg") eqn:Heq; [| reflexivity].
    apply String.eqb_eq in Heq. contradiction. }
  split; [reflexivity |].
  rewrite Hfile. eexists; reflexivity.
Qed.

(** Conversely, a well-formed inline reference is always resolved, and
    to that name. *)
Lemma inline_image_is_resolved total i subtype payload w :
  DataUrl.all_letters subtype = true ->
  subtype <> EmptyString ->
  payload <> EmptyString ->
  DataUrl.dot_only payload = true ->
  exists w',
    processImage total i ("data:image/" +:+ subtype +:+ ";base64," +:+ payload) w =
      (Ok (Js.path_join tmpDir
             ("publish_base64_" +:+ pretty (fst (date_now (host w))) +:+ "_"
              +:+ pretty i +:+ "."
              +:+ (if String.eqb subtype "jpeg" then "jpg" else subtype))), w').
Proof.
  intros Hletters Hsub Hpay Hdot. unfold processImage.
  change (Js.startsWith "http" ("data:image/" +:+ subtype +:+ ";base64," +:+ payload))
    with false.
  change (Js.startsWith "data:image" ("data:image/" +:+ subtype +:+ ";base64," +:+ payload))
    with true.
  cbv iota. rewrite (matchDataUrl_complete _ _ Hletters Hsub Hpay Hdot).
  unfold bind, try_catch, log, modify, Date_now, writeFileSync, existsSync, gets, ret.
  simpl. destruct (date_now (host w)) as [t h0]. simpl.
  rewrite lookup_insert_eq.
  rewrite bool_decide_eq_true_2 by (eexists; reflexivity).
  simpl. eexists. reflexivity.
Qed.

(** A reference with neither prefix is taken as a local path and only
    checked for existence. *)
Lemma processImage_local total i src w path w' :
  Js.startsWith "http" src = false ->
  Js.startsWith "data:image" src = false ->
  processImage total i src w = (Ok path, w') ->
  path = src /\ is_Some (files w !! src).
Proof.
  intros Hhttp Hdata H. unfold processImage in H. rewrite Hhttp, Hdata in H.
  apply bind_ok in H as ([] & w1 & Hlog & H).
  rewrite log_run in Hlog. injection Hlog as <-.
  apply bind_ok in H as (actualPath & w2 & Hret & H).
  injection Hret as <- <-.
  apply bind_ok in H as (present & w3 & Hex & H).
  injection Hex as <- <-.
  destruct (bool_decide _) eqn:Hpresent in H; simpl in H; [| discriminate].
  injection H as <- <-.
  split; [reflexivity |].
  apply bool_decide_eq_true in Hpresent. exact Hpresent.
Qed.

(** *** Termination of the ingestion *)

Lemma halts_ret {A} (a : A) : halts (ret a).
Proof. intros w; discriminate. Qed.

Lemma halts_throw {A} e : halts (throw (A := A) e).
Proof. intros w; discriminate. Qed.

Lemma halts_modify g : halts (modify g).
Proof. intros w; discriminate. Qed.

Lemma halts_gets {A} (g : World -> A) : halts (gets g).
Proof. intros w; discriminate. Qed.

Lemma halts_bind {A B} (m : M A) (k : A -> M B) :
  halts m -> (forall a, halts (k a)) -> halts (bind m k).
Proof.
  intros Hm Hk w. unfold bind. specialize (Hm w).
  destruct (m w) as [[a|e|] w1]; simpl in *; [apply Hk | discriminate | congruence].
Qed.

Lemma halts_try_catch {A} (m : M A) (h : string -> M A) :
  halts m -> (forall e, halts (h e)) -> halts (try_catch m h).
Proof.
  intros Hm Hh w. unfold try_catch. specialize (Hm w).
  destruct (m w) as [[a|e|] w1]; simpl in *; [discriminate | apply Hh | congruence].
Qed.

Lemma halts_Date_now : halts Date_now.
Proof. intros w. unfold Date_now. destruct (date_now (host w)). discriminate. Qed.

Lemma halts_httpsGet url : halts (httpsGet url).
Proof. intros w. unfold httpsGet. destruct (https_get url (host w)). discriminate. Qed.

Lemma halts_await {A} (call : Chrome -> Settled A * Chrome) : halts (await call).
Proof. intros w. unfold await. destruct (call (chrome w)) as [[a|e] c]; discriminate. Qed.

Ltac total :=
  repeat lazymatch goal with
    | |- halts (ret _) => apply halts_ret
    | |- halts (throw _) => apply halts_throw
    | |- halts (modify _) => apply halts_modify
    | |- halts (gets _) => apply halts_gets
    | |- halts (log _) => apply halts_modify
    | |- halts (existsSync _) => apply halts_gets
    | |- halts (mkdirSync _) => apply halts_modify
    | |- halts (writeFileSync _ _) => apply halts_modify
    | |- halts (createWriteStream _) => apply halts_modify
    | |- halts (pipeToFile _ _) => apply halts_modify
    | |- halts (unlink _) => apply halts_modify
    | |- halts Date_now => apply halts_Date_now
    | |- halts (httpsGet _) => apply halts_httpsGet
    | |- halts (await _) => apply halts_await
    | |- halts (if ?b then _ else _) => destruct b
    | |- halts (match ?x with _ => _ end) => destruct x
    | |- halts (bind _ _) => apply halts_bind; [| intros ?]
    | |- halts (try_catch _ _) => apply halts_try_catch; [| intros ?]
    end.

Lemma halts_processImage total i src : halts (processImage total i src).
Proof. unfold processImage, downloadImage. total. Qed.

Lemma halts_processImages total rest :
  forall i acc, halts (processImages total i rest acc).
Proof.
  induction rest; intros; simpl; [total |].
  apply halts_bind; [apply halts_processImage | intros; apply IHrest].
Qed.

Lemma halts_ingest srcs : halts (ingest srcs).
Proof.
  unfold ingest.
  apply halts_bind; [total | intros present].
  apply halts_bind; [total | intros _].
  apply halts_bind; [apply halts_processImages | intros; total].
Qed.

(** *** Length and order *)

Lemma processImages_ok total rest :
  forall i acc out w w',
    processImages total i rest acc w = (Ok out, w') ->
    exists fresh,
      out = acc ++ fresh
      /\ length fresh = length rest
      /\ forall k src, rest !! k = Some src ->
           exists path, fresh !! k = Some path /\ resolves total (i + k) src path.
Proof.
  induction rest as [|src0 rest IH]; intros i acc out w w' H; simpl in H.
  - injection H as <- <-. exists []. rewrite app_nil_r.
    split; [reflexivity |]. split; [reflexivity |].
    intros k src Hk. rewrite lookup_nil in Hk. discriminate.
  - apply bind_ok in H as (p0 & w1 & Hhead & Htail).
    destruct (IH _ _ _ _ _ Htail) as (fresh & -> & Hlen & Hall).
    exists (p0 :: fresh). rewrite <- app_assoc.
    split; [reflexivity |]. split; [simpl; congruence |].
    intros [|k] src Hk; simpl in Hk.
    + injection Hk as <-. exists p0. split; [reflexivity |].
      rewrite Nat.add_0_r. exists w, w1. exact Hhead.
    + destruct (Hall k src Hk) as (path & Hpath & Hres).
      exists path. split; [exact Hpath |].
      rewrite Nat.add_succ_r. exact Hres.
Qed.

(** C5.  Ingestion ends, and in one of two ways.  Either it returns a
    list as long as the input whose element [i] is what the loop
    resolved for input [i]; or it throws, and then [runPublish] throws
    the same error at once, with the browser state and the process list
    untouched and nothing printed.  No shorter list is ever passed on. *)
Theorem ingestion_is_all_or_nothing (sourceImagePaths : list string) (w : World) :
  match ingest sourceImagePaths w with
  | (Ok actualImagePaths, _) =>
      length actualImagePaths = length sourceImagePaths
      /\ (forall i sourcePath,
            sourceImagePaths !! i = Some sourcePath ->
            exists path,
              actualImagePaths !! i = Some path
              /\ resolves (length sourceImagePaths) i sourcePath path)
      /\ forall config w0 browser page paths w1,
           preflight config w0 = (Ok sourceImagePaths, w) ->
           acquire config w0 = (Ok (browser, page, paths), w1) ->
           paths = actualImagePaths
  | (Throw message, w') =>
      chrome w' = chrome w /\ spawned w' = spawned w
      /\ forall fuel config w0,
           preflight config w0 = (Ok sourceImagePaths, w) ->
           runPublish fuel config w0 = (Throw message, w')
           /\ chrome w' = chrome w0 /\ spawned w' = spawned w0
           /\ stdout w' = stdout w0
  | (Diverge, _) => False
  end.
Proof.
  pose proof (halts_ingest sourceImagePaths w) as Hhalts.
  assert (Hc : chrome (snd (ingest sourceImagePaths w)) = chrome w)
    by (apply keeps_ingest; reflexivity).
  assert (Hs : spawned (snd (ingest sourceImagePaths w)) = spawned w)
    by (apply keeps_ingest; reflexivity).
  assert (Ho : stdout (snd (ingest sourceImagePaths w)) = stdout w)
    by (apply keeps_ingest; reflexivity).
  destruct (ingest sourceImagePaths w) as [[out|message|] w'] eqn:Hrun;
    simpl in *; [| | congruence].
  - unfold ingest in Hrun.
    apply bind_ok in Hrun as (present & w1 & Hpresent & Hrun).
    injection Hpresent as <- <-.
    apply bind_ok in Hrun as ([] & w2 & Hmkdir & Hrun).
    apply bind_ok in Hrun as (paths & w3 & Hloop & Hrun).
    apply bind_ok in Hrun as ([] & w4 & _ & Hret).
    injection Hret as <- <-.
    destruct (processImages_ok _ _ _ _ _ _ _ Hloop) as (fresh & -> & Hlen & Hall).
    simpl. split; [exact Hlen |]. split; [exact Hall |].
    intros config w0 browser page paths w5 Hpre Hacq.
    unfold acquire in Hacq.
    apply bind_ok in Hacq as (srcs & w6 & Hpre' & Hacq).
    rewrite Hpre in Hpre'. injection Hpre' as <- <-.
    apply bind_ok in Hacq as (out & w7 & Hing & Hacq).
    unfold ingest in Hing.
    apply bind_ok in Hing as (present' & w8 & Hex & Hing).
    injection Hex as <- <-.
    apply bind_ok in Hing as ([] & w9 & Hmk & Hing).
    rewrite Hmkdir in Hmk. injection Hmk as <-.
    apply bind_ok in Hing as (out' & w10 & Hout & Hing).
    rewrite Hloop in Hout. injection Hout as <- <-.
    apply bind_ok in Hing as ([] & w11 & _ & Hing).
    injection Hing as <- <-.
    apply bind_ok in Hacq as ([] & w12 & _ & Hacq).
    apply bind_ok in Hacq as (b & w13 & _ & Hacq).
    apply bind_ok in Hacq as (pg & w14 & _ & Hacq).
    injection Hacq as <- <- <- <-. reflexivity.
  - split; [exact Hc |]. split; [exact Hs |].
    intros fuel config w0 Hpre.
    assert (Hc0 : chrome (snd (preflight config w0)) = chrome w0)
      by (apply keeps_preflight; reflexivity).
    assert (Hs0 : spawned (snd (preflight config w0)) = spawned w0)
      by (apply keeps_preflight; reflexivity).
    assert (Ho0 : stdout (snd (preflight config w0)) = stdout w0)
      by (apply keeps_preflight; reflexivity).
    rewrite Hpre in Hc0, Hs0, Ho0. simpl in Hc0, Hs0, Ho0.
    split; [| repeat split; congruence].
    unfold runPublish, acquire, bind. rewrite Hpre, Hrun. reflexivity.
Qed.

(** What [resolves] amounts to, by the prefix of the reference. *)
Lemma resolves_shape total i src path :
  resolves total i src path ->
  if Js.startsWith "http" src then
    exists timestamp : Z,
      path = Js.path_join tmpDir
               ("publish_" +:+ pretty timestamp +:+ "_" +:+ pretty i +:+ ".png")
  else if Js.startsWith "data:image" src then
    exists subtype payload (timestamp : Z),
      DataUrl.matchDataUrl src = Some (subtype, payload)
      /\ path = Js.path_join tmpDir
                  ("publish_base64_" +:+ pretty timestamp +:+ "_" +:+ pretty i +:+ "."
                   +:+ (if String.eqb subtype "jpeg" then "jpg" else subtype))
  else path = src.
Proof.
  intros (w & w' & H).
  destruct (Js.startsWith "http" src) eqn:Hhttp.
  - destruct (processImage_http _ _ _ _ _ _ Hhttp H) as (-> & _).
    eexists; reflexivity.
  - destruct (Js.startsWith "data:image" src) eqn:Hdata.
    + destruct (processImage_data _ _ _ _ _ _ Hdata H) as (subtype & payload & Hm & -> & _).
      exists subtype, payload, (fst (date_now (host w))). split; [exact Hm | reflexivity].
    + exact (proj1 (processImage_local _ _ _ _ _ _ Hhttp Hdata H)).
Qed.

(** *** Failed downloads *)

(** A response with a status other than 200 rejects the promise and
    leaves the file that the write stream opened. *)
Lemma downloadImage_bad_status url dest w statusCode statusMessage body h :
  https_get url (host w) = (Response statusCode statusMessage body, h) ->
  statusCode <> 200%Z ->
  exists w',
    downloadImage url dest w =
      (Throw ("Failed to download image: " +:+ pretty statusCode +:+ " " +:+ statusMessage), w')
    /\ files w' !! dest = Some (File EmptyString).
Proof.
  intros Hanswer Hcode. unfold downloadImage, bind, createWriteStream, modify, httpsGet.
  simpl. rewrite Hanswer.
  destruct (statusCode =? 200)%Z eqn:Htest; [apply Z.eqb_eq in Htest; contradiction |].
  eexists. split; [reflexivity |]. simpl. apply lookup_insert_eq.
Qed.

(** The ['error'] handler of the request is the one place that unlinks. *)
Lemma downloadImage_request_error url dest w message h :
  https_get url (host w) = (RequestError message, h) ->
  exists w',
    downloadImage url dest w = (Throw message, w')
    /\ files w' !! dest = None.
Proof.
  intros Hanswer. unfold downloadImage, bind, createWriteStream, unlink, modify, httpsGet.
  simpl. rewrite Hanswer.
  eexists. split; [reflexivity |]. simpl. apply lookup_delete_eq.
Qed.

(** C3.  What the code does with a remote reference whose response has
    a status other than 200, 404 included: the turn of the loop throws
    the download error, and the file the write stream opened is still in
    the temporary directory, empty.  The specification asks for no
    file to be left; only the ['error'] handler of the request removes it
    ([downloadImage_request_error]). *)
Theorem rejected_download_leaves_partial_file
    total i sourcePath (w : World) statusCode statusMessage body h :
  Js.startsWith "http" sourcePath = true ->
  https_get sourcePath (snd (date_now (host w))) = (Response statusCode statusMessage body, h) ->
  statusCode <> 200%Z ->
  exists w',
    processImage total i sourcePath w =
      (Throw ("Failed to download image " +:+ pretty (S i) +:+ ": "
              +:+ "Failed to download image: " +:+ pretty statusCode +:+ " " +:+ statusMessage),
       w')
    /\ files w' !!
         Js.path_join tmpDir
           ("publish_" +:+ pretty (fst (date_now (host w))) +:+ "_" +:+ pretty i +:+ ".png")
       = Some (File EmptyString).
Proof.
  intros Hhttp Hanswer Hcode.
  unfold processImage. rewrite Hhttp.
  unfold bind at 1. rewrite log_run.
  unfold bind at 1. unfold bind at 1. unfold Date_now. simpl host.
  destruct (date_now (host w)) as [t h0]. simpl in Hanswer. simpl fst.
  set (dest := Js.path_join tmpDir
                 ("publish_" +:+ pretty t +:+ "_" +:+ pretty i +:+ ".png")).
  match goal with
  | |- context [bind (try_catch _ _) _ ?w0] =>
      destruct (downloadImage_bad_status sourcePath dest w0
                  statusCode statusMessage body h Hanswer Hcode) as (w' & Hd & Hfile)
  end.
  exists w'. split; [| exact Hfile].
  unfold bind at 1. unfold try_catch. unfold bind at 1. rewrite Hd. reflexivity.
Qed.

(** ** Publish workflow *)

(** C9.  With [n >= 1] images the wait after the upload is
    [min(30 + 5 * (n - 1), 60)] seconds, between 30 and 60, and it is
    the number of seconds, times 1000, that [uploadImages] lets pass as
    its last step. *)
Theorem settling_wait_is_scaled_and_capped (page : Page) (paths : list string) (w w' : World) :
  (1 <= length paths)%nat ->
  waitTime (length paths) = Z.min (30 + 5 * (Z.of_nat (length paths) - 1)) 60
  /\ (30 <= waitTime (length paths) <= 60)%Z
  /\ (uploadImages page paths w = (Ok tt, w') ->
      exists c, chrome w' = elapse (waitTime (length paths) * 1000) c).
Proof.
  intros Hn. unfold waitTime. split; [f_equal; lia |]. split; [lia |].
  intros H. unfold uploadImages in H.
  apply bind_ok in H as ([] & w1 & _ & H).
  apply bind_ok in H as (tabVisible & w2 & _ & H).
  apply bind_ok in H as ([] & w3 & _ & H).
  apply bind_ok in H as ([] & w4 & _ & H).
  apply bind_ok in H as ([] & w5 & _ & H).
  apply bind_ok in H as ([] & w6 & _ & H).
  apply bind_ok in H as ([] & w7 & _ & H).
  injection H as <-. eexists. reflexivity.
Qed.

(** *** The result line *)

Lemma conclude_run config page publishSuccess w :
  exists w',
    conclude config page publishSuccess w = (Ok tt, w')
    /\ stdout w' = stdout w ++ [resultLine config "success" (confirmation publishSuccess)].
Proof.
  unfold conclude, bind, waitForTimeout, console_log, modify.
  destruct publishSuccess; eexists; (split; [reflexivity |]); reflexivity.
Qed.

Lemma disconnect_run browser w :
  exists w', disconnect browser w = (Ok tt, w') /\ stdout w' = stdout w.
Proof. eexists. split; reflexivity. Qed.

Lemma reportFailure_run config message w :
  exists w',
    reportFailure config message w = (Ok tt, w')
    /\ stdout w' = stdout w ++ [resultLine config "failed" message].
Proof. eexists. split; reflexivity. Qed.

(** The [try] block prints its one line as its last step, and only when
    it ends normally. *)
Lemma workflow_stdout fuel config page paths w :
  match workflow fuel config page paths w with
  | (Ok _, w') =>
      exists publishSuccess,
        stdout w' = stdout w ++ [resultLine config "success" (confirmation publishSuccess)]
  | (Throw _, w') => stdout w' = stdout w
  | (Diverge, _) => True
  end.
Proof.
  unfold workflow, bind.
  assert (Hp : stdout (snd (prepare fuel config page paths w)) = stdout w)
    by (apply keeps_prepare; reflexivity).
  destruct (prepare fuel config page paths w) as [[[]|e|] w1]; simpl in Hp;
    [| exact Hp | exact I].
  assert (Hl : stdout (snd (publishLoop page (Z.to_nat maxRetries) 1 w1)) = stdout w1)
    by (apply keeps_publishLoop; reflexivity).
  destruct (publishLoop page (Z.to_nat maxRetries) 1 w1) as [[s|e|] w2]; simpl in Hl;
    [| congruence | exact I].
  destruct (conclude_run config page s w2) as (w3 & -> & Hout).
  exists s. congruence.
Qed.

(** The whole [try]/[catch]/[finally]: one line, of one of two kinds. *)
Lemma guarded_stdout fuel config browser page paths w :
  match try_catch_finally (workflow fuel config page paths)
          (reportFailure config) (disconnect browser) w with
  | (Ok _, w') =>
      exists status message,
        stdout w' = stdout w ++ [resultLine config status message]
        /\ (status = "success" \/ status = "failed")
  | (Throw _, _) => False
  | (Diverge, _) => True
  end.
Proof.
  unfold try_catch_finally, try_catch.
  pose proof (workflow_stdout fuel config page paths w) as Hw.
  destruct (workflow fuel config page paths w) as [[[]|e|] w1].
  - destruct Hw as (s & Hw).
    destruct (disconnect_run browser w1) as (w2 & -> & Hd).
    exists "success", (confirmation s). split; [congruence | left; reflexivity].
  - destruct (reportFailure_run config e w1) as (w2 & -> & Hr).
    destruct (disconnect_run browser w2) as (w3 & -> & Hd).
    exists "failed", e. split; [congruence | right; reflexivity].
  - exact I.
Qed.

Lemma publishLoop_first_try page w w' :
  publishAttempt page 1 w = (Ok true, w') ->
  publishLoop page (Z.to_nat maxRetries) 1 w = (Ok true, w').
Proof.
  intros H. change (Z.to_nat maxRetries) with 3%nat.
  unfold publishLoop, bind. rewrite H. reflexivity.
Qed.

Lemma publishLoop_exhausted page w w1 w2 w3 :
  publishAttempt page 1 w = (Ok false, w1) ->
  publishAttempt page 2 w1 = (Ok false, w2) ->
  publishAttempt page 3 w2 = (Ok false, w3) ->
  publishLoop page (Z.to_nat maxRetries) 1 w = (Ok false, w3).
Proof.
  intros H1 H2 H3. change (Z.to_nat maxRetries) with 3%nat.
  unfold publishLoop, bind.
  rewrite H1. change (1 + 1)%Z with 2%Z.
  rewrite H2. change (2 + 1)%Z with 3%Z.
  rewrite H3. reflexivity.
Qed.

(** A run that gets through the loop ends normally with the line that
    goes with the loop's verdict. *)
Lemma runPublish_after_loop fuel config w browser page paths w1 w2 publishSuccess w3 :
  acquire config w = (Ok (browser, page, paths), w1) ->
  prepare fuel config page paths w1 = (Ok tt, w2) ->
  publishLoop page (Z.to_nat maxRetries) 1 w2 = (Ok publishSuccess, w3) ->
  exists w',
    runPublish fuel config w = (Ok tt, w')
    /\ stdout w' = stdout w ++ [resultLine config "success" (confirmation publishSuccess)].
Proof.
  intros Hacq Hprep Hloop.
  assert (H1 : stdout w1 = stdout w).
  { pose proof (keeps_acquire _ stdout) as K. unfold keeps in K.
    rewrite <- (K ltac:(reflexivity) ltac:(reflexivity) ltac:(reflexivity)
                  ltac:(reflexivity) ltac:(reflexivity) config w).
    rewrite Hacq. reflexivity. }
  assert (H2 : stdout w2 = stdout w1).
  { rewrite <- (keeps_prepare _ stdout ltac:(reflexivity) ltac:(reflexivity)
                  ltac:(reflexivity) fuel config page paths w1).
    rewrite Hprep. reflexivity. }
  assert (H3 : stdout w3 = stdout w2).
  { rewrite <- (keeps_publishLoop _ stdout ltac:(reflexivity) ltac:(reflexivity)
                  page (Z.to_nat maxRetries) 1%Z w2).
    rewrite Hloop. reflexivity. }
  destruct (conclude_run config page publishSuccess w3) as (w4 & Hc & Hout).
  destruct (disconnect_run browser w4) as (w5 & Hd & Hkeep).
  exists w5. split.
  - unfold runPublish, bind. rewrite Hacq.
    unfold try_catch_finally, try_catch, workflow, bind.
    rewrite Hprep, Hloop, Hc, Hd. reflexivity.
  - congruence.
Qed.

(** [runPublish] as a whole: one line when it returns, none when it
    throws (it then threw before its [try]). *)
Lemma runPublish_stdout fuel config w :
  match runPublish fuel config w with
  | (Ok _, w') =>
      exists status message,
        stdout w' = stdout w ++ [resultLine config status message]
        /\ (status = "success" \/ status = "failed")
  | (Throw _, w') => stdout w' = stdout w
  | (Diverge, _) => True
  end.
Proof.
  unfold runPublish, bind.
  assert (Ha : stdout (snd (acquire config w)) = stdout w)
    by (apply keeps_acquire; reflexivity).
  destruct (acquire config w) as [[[[browser page] paths]|e|] w1]; simpl in Ha;
    [| exact Ha | exact I].
  pose proof (guarded_stdout fuel config browser page paths w1) as Hg.
  destruct (try_catch_finally _ _ _ w1) as [[[]|e|] w2]; [| contradiction | exact I].
  destruct Hg as (status & message & Hout & Hstatus).
  exists status, message. split; [congruence | exact Hstatus].
Qed.




(** *** The error scan *)

(** The scan answers [true] only if one of the messages was reported
    visible by the page. *)
Lemma scanErrorMessages_true page msgs :
  forall w w',
    scanErrorMessages page msgs w = (Ok true, w') ->
    exists errMsg c c',
      In errMsg msgs
      /\ locator_isVisible page (GetByText errMsg false) (Some 500%Z) c = (Fulfilled true, c').
Proof.
  induction msgs as [|errMsg rest IH]; intros w w' H; simpl in H; [discriminate |].
  apply bind_ok in H as (found & w1 & Hturn & H).
  destruct found.
  - exists errMsg. unfold try_catch, bind, await in Hturn.
    destruct (locator_isVisible page (GetByText errMsg false) (Some 500%Z) (chrome w))
      as [[visible|e] c'] eqn:Hvis; [| discriminate].
    destruct visible; [| discriminate].
    exists (chrome w), c'. split; [left; reflexivity | exact Hvis].
  - destruct (IH _ _ H) as (m & c & c' & Hin & Hvis).
    exists m, c, c'. split; [right; exact Hin | exact Hvis].
Qed.

(** The dump of the page state swallows its own exceptions. *)
Lemma dumpPageState_ok page w : exists w', dumpPageState page w = (Ok tt, w').
Proof.
  unfold dumpPageState, bind, try_catch, log, modify, gets, await. simpl.
  destruct (page_title page (chrome w)) as [[pageTitle|e] c]; simpl;
    match goal with
    | |- context [page_innerText page "body" ?c0] =>
        destruct (page_innerText page "body" c0) as [[pageText|e'] c']
    end; eexists; reflexivity.
Qed.

(** C4.  In a run whose third attempt loses the race and finds none of
    the alternative success texts, the page is scanned for the six error
    messages; whatever that scan answers, [true] included, the attempt
    ends with [publishSuccess] still [false] after the page-state dump,
    the run ends normally, and the line printed has status ["success"]
    with the message asking for a manual check. *)
Theorem detected_error_leaves_outcome_success
    (fuel : nat) (config : PublishConfig) (w : World)
    browser page paths (w1 w2 w3 w4 w5 w6 w7 w8 w9 : World)
    (message : string) (errorDetected : bool) :
  acquire config w = (Ok (browser, page, paths), w1) ->
  prepare fuel config page paths w1 = (Ok tt, w2) ->
  publishAttempt page 1 w2 = (Ok false, w3) ->
  publishAttempt page 2 w3 = (Ok false, w4) ->
  submit page 3 w4 = (Ok tt, w5) ->
  successRace page w5 = (Throw message, w6) ->
  reportRaceFailure page 3 message w6 = (Ok tt, w7) ->
  scanSuccessTexts page ["已发布"; "成功"; "发布完成"; "笔记已发布"] w7 = (Ok false, w8) ->
  scanErrorMessages page
    ["发布失败"; "请稍后再试"; "网络错误"; "请先登录"; "内容违规"; "审核不通过"] w8
    = (Ok errorDetected, w9) ->
  exists w10 w',
    dumpPageState page w9 = (Ok tt, w10)
    /\ publishAttempt page 3 w4 = (Ok false, w10)
    /\ runPublish fuel config w = (Ok tt, w')
    /\ stdout w' =
         stdout w ++
         [JObj (optional "taskId" (taskId config)
                ++ [("status", JStr "success");
                    ("data", JObj [("message", JStr "发布操作已执行，请检查小红书后台确认。")])])].
Proof.
  intros Hacq Hprep H1 H2 Hsubmit Hrace Hreport Hrescan Hscan.
  destruct (dumpPageState_ok page w9) as (w10 & Hdump).
  assert (H3 : publishAttempt page 3 w4 = (Ok false, w10)).
  { unfold publishAttempt, bind, try_catch. rewrite Hsubmit.
    unfold bind. rewrite Hrace.
    unfold afterRaceFailure, bind. rewrite Hreport.
    change additionalSuccessTexts with ["已发布"; "成功"; "发布完成"; "笔记已发布"].
    rewrite Hrescan.
    change errorMessages
      with ["发布失败"; "请稍后再试"; "网络错误"; "请先登录"; "内容违规"; "审核不通过"].
    rewrite Hscan.
    change (3 <? maxRetries)%Z with false. cbv iota. rewrite Hdump. reflexivity. }
  destruct (runPublish_after_loop fuel config w browser page paths w1 w2 false w10
              Hacq Hprep (publishLoop_exhausted _ _ _ _ _ H1 H2 H3)) as (w' & Hrun & Hout).
  exists w10, w'. repeat split; assumption.
Qed.

End Behaviour.

(** * Further properties of the code *)

(** ** Launching Chrome *)

Section Launch.

Context `{env : Env}.

Lemma find_first {A} (P : A -> bool) (l : list A) (x : A) :
  List.find P l = Some x ->
  exists before after,
    l = before ++ x :: after /\ P x = true /\ forall y, In y before -> P y = false.
Proof.
  induction l as [|a l IH]; simpl; [discriminate |].
  destruct (P a) eqn:Ha.
  - intros H. injection H as <-. exists [], l.
    split; [reflexivity |]. split; [exact Ha |]. intros y [].
  - intros H. destruct (IH H) as (before & after & -> & Hx & Hbefore).
    exists (a :: before), after.
    split; [reflexivity |]. split; [exact Hx |].
    intros y [<- | Hy]; [exact Ha | exact (Hbefore y Hy)].
Qed.

Lemma find_nothing {A} (P : A -> bool) (l : list A) :
  (forall y, In y l -> P y = false) -> List.find P l = None.
Proof.
  induction l as [|a l IH]; intros H; simpl; [reflexivity |].
  rewrite (H a (or_introl eq_refl)). apply IH. intros y Hy. apply H. right. exact Hy.
Qed.

Lemma exists_false p (w : World) :
  bool_decide (is_Some (files w !! p)) = false <-> files w !! p = None.
Proof.
  rewrite bool_decide_eq_false. split.
  - intros H. destruct (files w !! p) eqn:E; [| reflexivity].
    exfalso. apply H. eexists; reflexivity.
  - intros -> [x Hx]. discriminate.
Qed.

(** First match wins: the path [getChromePath] returns exists and sits
    in [CHROME_PATHS] after paths that all do not exist; it returns
    [null] exactly when none of the six exists.  Nothing is changed. *)
Theorem getChromePath_first_existing (w : World) :
  exists found,
    getChromePath w = (Ok found, w)
    /\ match found with
       | Some p =>
           exists before after,
             CHROME_PATHS = before ++ p :: after
             /\ is_Some (files w !! p)
             /\ forall q, In q before -> files w !! q = None
       | None => forall q, In q CHROME_PATHS -> files w !! q = None
       end.
Proof.
  unfold getChromePath, gets.
  destruct (List.find _ CHROME_PATHS) as [p|] eqn:Hfind; eexists; (split; [reflexivity |]).
  - destruct (find_first _ _ _ Hfind) as (before & after & Hsplit & Hp & Hbefore).
    exists before, after. split; [exact Hsplit |].
    split; [apply bool_decide_eq_true in Hp; exact Hp |].
    intros q Hq. apply exists_false. exact (Hbefore q Hq).
  - intros q Hq. apply exists_false.
    exact (List.find_none _ _ Hfind q Hq).
Qed.

Lemma isCDPAvailable_run (w : World) :
  exists up,
    isCDPAvailable w = (Ok up, with_chrome (snd (fetch_ok probeUrl (chrome w))) w)
    /\ (up = true <-> fst (fetch_ok probeUrl (chrome w)) = Fulfilled true).
Proof.
  unfold isCDPAvailable, try_catch, await, probeUrl.
  destruct (fetch_ok (CDP_ENDPOINT +:+ "/json/version") (chrome w)) as [[up|e] c]; simpl.
  - exists up. split; [reflexivity |]. split; [intros ->; reflexivity |].
    intros H. injection H as ->. reflexivity.
  - exists false. split; [reflexivity |]. split; discriminate.
Qed.

(** The probe never throws: a rejected [fetch] and a response that is
    not [ok] both give [false], and the answer is [true] only when the
    endpoint answered [ok].  Only the browser side of the world moves. *)
Theorem isCDPAvailable_absorbs_rejection (w : World) :
  exists up,
    isCDPAvailable w = (Ok up, with_chrome (snd (fetch_ok probeUrl (chrome w))) w)
    /\ (up = true <-> fst (fetch_ok probeUrl (chrome w)) = Fulfilled true).
Proof. exact (isCDPAvailable_run w). Qed.

Lemma isCDPAvailable_down (w : World) :
  fst (fetch_ok probeUrl (chrome w)) <> Fulfilled true ->
  isCDPAvailable w = (Ok false, with_chrome (snd (fetch_ok probeUrl (chrome w))) w).
Proof.
  intros Hdown. destruct (isCDPAvailable_run w) as (up & -> & Hup).
  destruct up; [| reflexivity]. exfalso. apply Hdown. apply Hup. reflexivity.
Qed.

Lemma pollCDP_down (n : nat) :
  (forall c, fst (fetch_ok probeUrl c) <> Fulfilled true) ->
  forall w,
    pollCDP n w =
      (Throw "Chrome 启动超时", with_chrome (Nat.iter n failedPoll (chrome w)) w).
Proof.
  intros Hdown. induction n as [|n IH]; intros w.
  - destruct w; reflexivity.
  - rewrite Nat.iter_succ_r.
    simpl pollCDP. unfold bind at 1. rewrite (isCDPAvailable_down w (Hdown _)).
    unfold bind at 1. unfold sleep, modify. rewrite IH.
    destruct w; reflexivity.
Qed.

(** The command line Chrome is started with. *)
Lemma launchChrome_found (w : World) chromePath :
  getChromePath w = (Ok (Some chromePath), w) ->
  exists w1,
    launchChrome w = pollCDP 20 w1
    /\ spawned w1 =
         spawned w ++
         [mkChild chromePath
            [ "--remote-debugging-port=9222";
              "--user-data-dir=" +:+ USER_DATA_DIR;
              "--no-first-run";
              "--no-default-browser-check" ]]
    /\ is_Some (files w1 !! USER_DATA_DIR)
    /\ (forall q, q <> USER_DATA_DIR -> files w1 !! q = files w !! q)
    /\ chrome w1 =
         on_spawn
           (mkChild chromePath
              [ "--remote-debugging-port=9222";
                "--user-data-dir=" +:+ USER_DATA_DIR;
                "--no-first-run";
                "--no-default-browser-check" ])
           (chrome w)
    /\ stdout w1 = stdout w.
Proof.
  intros Hfound. unfold launchChrome. unfold bind at 1. rewrite Hfound.
  unfold bind, existsSync, gets, mkdirSync, log, spawn, modify.
  destruct (bool_decide (is_Some (files w !! USER_DATA_DIR))) eqn:Hdir; simpl;
    eexists; (split; [reflexivity |]); simpl.
  - split; [reflexivity |].
    split; [apply bool_decide_eq_true in Hdir; exact Hdir |].
    split; [reflexivity |]. split; reflexivity.
  - split; [reflexivity |].
    split; [rewrite lookup_insert_eq; eexists; reflexivity |].
    split; [intros q Hq; apply lookup_insert_ne; congruence |].
    split; reflexivity.
Qed.

(** With Chrome installed, [launchChrome] starts exactly one detached
    process, with the debugging port 9222 and the profile directory on
    its command line, however the wait for the port ends; the profile
    directory exists afterwards. *)
Theorem launchChrome_spawns_one_process (w : World) chromePath :
  getChromePath w = (Ok (Some chromePath), w) ->
  spawned (snd (launchChrome w)) =
    spawned w ++
    [mkChild chromePath
       [ "--remote-debugging-port=9222";
         "--user-data-dir=" +:+ USER_DATA_DIR;
         "--no-first-run";
         "--no-default-browser-check" ]]
  /\ is_Some (files (snd (launchChrome w)) !! USER_DATA_DIR).
Proof.
  intros Hfound.
  destruct (launchChrome_found w chromePath Hfound) as (w1 & -> & Hs & Hdir & _).
  rewrite (keeps_pollCDP _ spawned ltac:(reflexivity) ltac:(reflexivity)).
  rewrite (keeps_pollCDP _ (fun w => files w !! USER_DATA_DIR)
             ltac:(reflexivity) ltac:(reflexivity)).
  split; assumption.
Qed.

(** When the endpoint never answers, [launchChrome] gives up with the
    start-up timeout after exactly twenty turns of probe-then-sleep
    500 ms, counted from the state right after the spawn. *)
Theorem launchChrome_times_out_after_twenty_polls (w : World) chromePath :
  getChromePath w = (Ok (Some chromePath), w) ->
  (forall c, fst (fetch_ok probeUrl c) <> Fulfilled true) ->
  exists w',
    launchChrome w = (Throw "Chrome 启动超时", w')
    /\ chrome w' =
         Nat.iter 20 failedPoll
           (on_spawn
              (mkChild chromePath
                 [ "--remote-debugging-port=9222";
                   "--user-data-dir=" +:+ USER_DATA_DIR;
                   "--no-first-run";
                   "--no-default-browser-check" ])
              (chrome w)).
Proof.
  intros Hfound Hdown.
  destruct (launchChrome_found w chromePath Hfound) as (w1 & -> & _ & _ & _ & Hc & _).
  rewrite (pollCDP_down 20 Hdown). eexists. split; [reflexivity |].
  simpl chrome. rewrite Hc. reflexivity.
Qed.

(** The polling loop returns only after a probe was answered [ok]: it
    is the first such probe, it comes after [k < left] turns of
    probe-then-sleep 500 ms, and no sleep follows it. *)
Theorem pollCDP_returns_after_positive_probe (n : nat) (w w' : World) :
  pollCDP n w = (Ok tt, w') ->
  exists k,
    k < n
    /\ fst (fetch_ok probeUrl (Nat.iter k failedPoll (chrome w))) = Fulfilled true
    /\ chrome w' = snd (fetch_ok probeUrl (Nat.iter k failedPoll (chrome w)))
    /\ forall j, j < k ->
         fst (fetch_ok probeUrl (Nat.iter j failedPoll (chrome w))) <> Fulfilled true.
Proof.
  revert w. induction n as [|n IH]; intros w H; simpl in H; [discriminate |].
  apply bind_ok in H as (up & w1 & Hprobe & H).
  destruct (isCDPAvailable_run w) as (up' & Hrun & Hup).
  rewrite Hrun in Hprobe. injection Hprobe as -> <-.
  destruct up.
  - exists 0. split; [lia |]. split; [apply Hup; reflexivity |]. split.
    + rewrite log_run in H. injection H as <-. reflexivity.
    + intros j Hj. lia.
  - apply bind_ok in H as ([] & w2 & Hsleep & H).
    unfold sleep, modify in Hsleep. injection Hsleep as <-.
    destruct (IH _ H) as (k & Hk & Hok & Hend & Hfirst).
    change (chrome (with_chrome ?c _)) with c in Hok, Hend, Hfirst.
    exists (S k). rewrite Nat.iter_succ_r. split; [lia |].
    split; [exact Hok |]. split; [exact Hend |].
    intros [|j] Hj.
    + intros Hc. apply Hup in Hc. discriminate.
    + rewrite Nat.iter_succ_r. apply Hfirst. lia.
Qed.

End Launch.

(** ** Failures before the browser is reached *)

Section Preconditions.

Context `{env : Env}.

(** Without a Chrome binary at any of the six paths, [runPublish]
    throws the install hint before doing anything: the world is exactly
    as it was.  In standard-input mode that is the [error] line and exit
    code 1. *)
Theorem missing_chrome_stops_the_run (fuel : nat) (config : PublishConfig) (w : World) :
  (forall q, In q CHROME_PATHS -> files w !! q = None) ->
  runPublish fuel config w = (Throw ("未检测到 Chrome 浏览器。" +:+ installHint), w)
  /\ exists w',
       main_stdin fuel config w = (Ok 1%Z, w')
       /\ stdout w' =
            stdout w ++
            [JObj (optional "taskId" (taskId config)
                   ++ [("status", JStr "failed");
                       ("error", JStr ("未检测到 Chrome 浏览器。" +:+ installHint))])]
       /\ spawned w' = spawned w /\ chrome w' = chrome w /\ files w' = files w.
Proof.
  intros Hnone.
  assert (Hfind : getChromePath w = (Ok None, w)).
  { unfold getChromePath, gets. rewrite find_nothing; [reflexivity |].
    intros q Hq. apply exists_false. exact (Hnone q Hq). }
  assert (Hrun : runPublish fuel config w
                 = (Throw ("未检测到 Chrome 浏览器。" +:+ installHint), w)).
  { unfold runPublish, acquire, preflight, bind. rewrite Hfind. reflexivity. }
  split; [exact Hrun |].
  unfold main_stdin, try_catch. unfold bind at 1. rewrite Hrun.
  eexists. split; [reflexivity |]. simpl. repeat split; reflexivity.
Qed.

(** An empty or absent [imagePaths] together with an empty or absent
    [imagePath] is refused with the "Image path is required" error right
    after the Chrome check: no temporary directory is made, the clock is
    not read, the browser is not contacted. *)
Theorem no_image_is_refused (fuel : nat) (config : PublishConfig) (w : World) chromePath :
  getChromePath w = (Ok (Some chromePath), w) ->
  (imagePaths config = None \/ imagePaths config = Some []) ->
  (imagePath config = None \/ imagePath config = Some EmptyString) ->
  runPublish fuel config w =
    (Throw "Image path is required for XHS publish. Please provide imagePaths or imagePath.",
     logged ("Found Chrome at: " +:+ chromePath) w).
Proof.
  intros Hfound Hpaths Hpath.
  unfold runPublish, acquire, preflight. unfold bind at 1. unfold bind at 1.
  unfold bind at 1. rewrite Hfound. unfold bind at 1. rewrite log_run.
  unfold selectSources.
  destruct Hpaths as [-> | ->]; destruct Hpath as [-> | ->]; reflexivity.
Qed.

(** A non-empty [imagePaths] decides alone: the run is the same whatever
    [imagePath] holds.  An empty [imagePaths] counts as an absent one. *)
Theorem imagePaths_take_precedence
    (fuel : nat) first others single title0 content0 id (w : World) :
  runPublish fuel (mkConfig (Some (first :: others)) single title0 content0 id) w
  = runPublish fuel (mkConfig (Some (first :: others)) None title0 content0 id) w
  /\ runPublish fuel (mkConfig (Some []) single title0 content0 id) w
     = runPublish fuel (mkConfig None single title0 content0 id) w.
Proof. split; reflexivity. Qed.

(** A local path that does not exist is refused by name, with nothing
    changed but the log. *)
Theorem missing_local_image_is_refused total i sourcePath (w : World) :
  Js.startsWith "http" sourcePath = false ->
  Js.startsWith "data:image" sourcePath = false ->
  files w !! sourcePath = None ->
  processImage total i sourcePath w =
    (Throw ("Image file not found: " +:+ sourcePath),
     logged ("Processing image " +:+ pretty (S i) +:+ "/" +:+ pretty total +:+ ": "
             +:+ Js.substring0 50 sourcePath +:+ "...") w).
Proof.
  intros Hhttp Hdata Hnone. unfold processImage. rewrite Hhttp, Hdata.
  unfold bind at 1. rewrite log_run.
  unfold bind, ret, existsSync, gets. simpl.
  rewrite (proj2 (exists_false sourcePath w) Hnone). reflexivity.
Qed.

(** An inline reference that the pattern does not match is refused as
    an invalid Base64 image; no file is written and the clock is not
    read. *)
Theorem malformed_inline_image_is_refused total i sourcePath (w : World) :
  Js.startsWith "data:image" sourcePath = true ->
  DataUrl.matchDataUrl sourcePath = None ->
  processImage total i sourcePath w =
    (Throw ("Failed to process Base64 image " +:+ pretty (S i)
            +:+ ": Invalid Base64 image format"),
     logged ("Processing image " +:+ pretty (S i) +:+ "/" +:+ pretty total +:+ ": "
             +:+ Js.substring0 50 sourcePath +:+ "...") w).
Proof.
  intros Hdata Hnone. unfold processImage.
  rewrite (data_prefix_not_http _ Hdata), Hdata, Hnone.
  unfold bind at 1. rewrite log_run. reflexivity.
Qed.

(** When the request itself fails (the ['error'] event), the turn of the
    loop throws the transport error under the download prefix, and the
    file the write stream had opened is gone. *)
Theorem transport_error_removes_partial_file
    total i sourcePath (w : World) message h :
  Js.startsWith "http" sourcePath = true ->
  https_get sourcePath (snd (date_now (host w))) = (RequestError message, h) ->
  exists w',
    processImage total i sourcePath w =
      (Throw ("Failed to download image " +:+ pretty (S i) +:+ ": " +:+ message), w')
    /\ files w' !!
         Js.path_join tmpDir
           ("publish_" +:+ pretty (fst (date_now (host w))) +:+ "_" +:+ pretty i +:+ ".png")
       = None.
Proof.
  intros Hhttp Hanswer.
  unfold processImage. rewrite Hhttp.
  unfold bind at 1. rewrite log_run.
  unfold bind at 1. unfold bind at 1. unfold Date_now. simpl host.
  destruct (date_now (host w)) as [t h0]. simpl in Hanswer. simpl fst.
  set (dest := Js.path_join tmpDir
                 ("publish_" +:+ pretty t +:+ "_" +:+ pretty i +:+ ".png")).
  match goal with
  | |- context [bind (try_catch _ _) _ ?w0] =>
      destruct (downloadImage_request_error sourcePath dest w0 message h Hanswer)
        as (w' & Hd & Hfile)
  end.
  exists w'. split; [| exact Hfile].
  unfold bind at 1. unfold try_catch. unfold bind at 1. rewrite Hd. reflexivity.
Qed.

End Preconditions.

(** ** The inline-image pattern *)

Section PatternFacts.

Import DataUrl.

(** The pattern and the string it was cut from determine each other: a
    match returns exactly the subtype and payload of a string of the form
    [data:image/<subtype>;base64,<payload>] whose subtype is a non-empty
    run of letters and whose payload is non-empty and on one line. *)
Theorem matchDataUrl_round_trip (s subtype payload : string) :
  matchDataUrl s = Some (subtype, payload) <->
  s = "data:image/" +:+ subtype +:+ ";base64," +:+ payload
  /\ all_letters subtype = true
  /\ subtype <> EmptyString
  /\ payload <> EmptyString
  /\ dot_only payload = true.
Proof.
  split.
  - intros H.
    split; [exact (matchDataUrl_parts _ _ _ H) |].
    split; [exact (matchDataUrl_letters _ _ _ H) |].
    unfold matchDataUrl in H.
    destruct (strip_prefix "data:image/" s) as [rest|]; [| discriminate].
    destruct (span_letters rest) as [run tail].
    destruct run as [|a run]; [discriminate |].
    destruct (strip_prefix ";base64," tail) as [p|]; [| discriminate].
    destruct p as [|b p]; [discriminate |].
    destruct (dot_only (String b p)) eqn:Hdot; [| discriminate].
    injection H as <- <-. repeat split; [discriminate | discriminate | exact Hdot].
  - intros (-> & Hletters & Hsub & Hpay & Hdot).
    exact (matchDataUrl_complete _ _ Hletters Hsub Hpay Hdot).
Qed.

End PatternFacts.

(** ** Failures and retries inside the workflow *)

Ltac halting :=
  repeat lazymatch goal with
    | |- halts (bind _ _) => apply halts_bind; [| intros ?]
    | |- halts (try_catch _ _) => apply halts_try_catch; [| intros ?]
    | |- halts (ret _) => apply halts_ret
    | |- halts (throw _) => apply halts_throw
    | |- halts (gets _) => apply halts_gets
    | |- halts (modify _) => apply halts_modify
    | |- halts (log _) => apply halts_modify
    | |- halts (waitForTimeout _ _) => apply halts_modify
    | |- halts (sleep _) => apply halts_modify
    | |- halts (await _) => apply halts_await
    | |- halts Date_now => apply halts_Date_now
    | |- halts (if ?b then _ else _) => destruct b
    | |- halts (match ?x with _ => _ end) => destruct x
    | |- halts _ => solve [auto with halting]
    end.

Create HintDb halting.
Create HintDb absorbing.

Section Absorbed.

Context `{env : Env}.

Lemma never_throws_ret {A} (a : A) : never_throws (ret a).
Proof. intros w. eexists _, _. reflexivity. Qed.

Lemma never_throws_modify g : never_throws (modify g).
Proof. intros w. eexists _, _. reflexivity. Qed.

Lemma never_throws_gets {A} (g : World -> A) : never_throws (gets g).
Proof. intros w. eexists _, _. reflexivity. Qed.

Lemma never_throws_bind {A B} (m : M A) (k : A -> M B) :
  never_throws m -> (forall a, never_throws (k a)) -> never_throws (bind m k).
Proof.
  intros Hm Hk w. destruct (Hm w) as (a & w1 & Ha). destruct (Hk a w1) as (b & w2 & Hb).
  exists b, w2. unfold bind. rewrite Ha. exact Hb.
Qed.

(** A [try] whose [catch] cannot throw absorbs whatever its body throws. *)
Lemma never_throws_try_catch {A} (m : M A) (h : string -> M A) :
  halts m -> (forall e, never_throws (h e)) -> never_throws (try_catch m h).
Proof.
  intros Hm Hh w. unfold try_catch. specialize (Hm w).
  destruct (m w) as [[a|e|] w1]; simpl in Hm.
  - eexists _, _. reflexivity.
  - apply Hh.
  - congruence.
Qed.

Ltac absorbing :=
  repeat lazymatch goal with
    | |- never_throws (bind _ _) => apply never_throws_bind; [| intros ?]
    | |- never_throws (try_catch _ _) => apply never_throws_try_catch; [halting | intros ?]
    | |- never_throws (ret _) => apply never_throws_ret
    | |- never_throws (gets _) => apply never_throws_gets
    | |- never_throws (modify _) => apply never_throws_modify
    | |- never_throws (log _) => apply never_throws_modify
    | |- never_throws (waitForTimeout _ _) => apply never_throws_modify
    | |- never_throws (if ?b then _ else _) => destruct b
    | |- never_throws _ => solve [auto with absorbing]
    end.

Lemma never_throws_checkUploadPopup page msgs : never_throws (checkUploadPopup page msgs).
Proof. induction msgs; simpl; absorbing. Qed.

Lemma never_throws_scanSuccessTexts page texts : never_throws (scanSuccessTexts page texts).
Proof. induction texts; simpl; absorbing. Qed.

Lemma never_throws_scanErrorMessages page msgs : never_throws (scanErrorMessages page msgs).
Proof. induction msgs; simpl; absorbing. Qed.

Lemma never_throws_dumpPageState page : never_throws (dumpPageState page).
Proof. unfold dumpPageState. absorbing. Qed.

Lemma never_throws_reportRaceFailure page attempt message :
  never_throws (reportRaceFailure page attempt message).
Proof. unfold reportRaceFailure. absorbing. Qed.

Hint Resolve never_throws_checkUploadPopup never_throws_scanSuccessTexts
  never_throws_scanErrorMessages never_throws_dumpPageState
  never_throws_reportRaceFailure : absorbing.

Lemma never_throws_afterRaceFailure page attempt message :
  never_throws (afterRaceFailure page attempt message).
Proof. unfold afterRaceFailure. absorbing. Qed.

Lemma halts_successRace page : halts (successRace page).
Proof. unfold successRace. halting. Qed.

Lemma never_throws_confirmation page attempt :
  never_throws (try_catch (bind (successRace page) (fun _ => ret true))
                          (afterRaceFailure page attempt)).
Proof.
  apply never_throws_try_catch.
  - apply halts_bind; [apply halts_successRace | intros; apply halts_ret].
  - intros e. apply never_throws_afterRaceFailure.
Qed.

Lemma publishAttempt_click_throws page attempt (w : World) e w' :
  clickPublish page
    (logged ("Publish attempt " +:+ pretty attempt +:+ "/" +:+ pretty maxRetries +:+ "...") w)
  = (Throw e, w') ->
  publishAttempt page attempt w = (Throw e, w').
Proof.
  intros H. unfold publishAttempt, submit.
  unfold bind at 1. unfold bind at 1. unfold bind at 1.
  rewrite log_run. unfold bind at 1. rewrite H. reflexivity.
Qed.


(** The loop stops at the first attempt that ends with success: it
    returns [true] in the world that attempt left, after one, two or
    three attempts, the earlier ones having ended without success. *)
Theorem publishLoop_stops_at_first_success page (w w' : World) :
  publishLoop page (Z.to_nat maxRetries) 1 w = (Ok true, w') <->
  publishAttempt page 1 w = (Ok true, w')
  \/ (exists w1,
        publishAttempt page 1 w = (Ok false, w1)
        /\ publishAttempt page 2 w1 = (Ok true, w'))
  \/ (exists w1 w2,
        publishAttempt page 1 w = (Ok false, w1)
        /\ publishAttempt page 2 w1 = (Ok false, w2)
        /\ publishAttempt page 3 w2 = (Ok true, w')).
Proof.
  change (Z.to_nat maxRetries) with 3%nat. unfold publishLoop, bind.
  change (1 + 1)%Z with 2%Z. change (2 + 1)%Z with 3%Z.
  split.
  - destruct (publishAttempt page 1 w) as [[[|]|e|] w1]; try discriminate.
    { intros H. injection H as <-. left. reflexivity. }
    destruct (publishAttempt page 2 w1) as [[[|]|e|] w2] eqn:H2; try discriminate.
    { intros H. injection H as <-. right. left. exists w1. split; [reflexivity | exact H2]. }
    destruct (publishAttempt page 3 w2) as [[[|]|e|] w3] eqn:H3; try discriminate.
    intros H. injection H as <-.
    right. right. exists w1, w2. split; [reflexivity |]. split; [exact H2 | exact H3].
  - intros [-> | [(w1 & -> & ->) | (w1 & w2 & -> & -> & ->)]]; reflexivity.
Qed.

(** What [runPublish] does with an exception of the workflow. *)
Lemma runPublish_workflow_throws fuel config (w : World) browser page paths w1 e w2 :
  acquire config w = (Ok (browser, page, paths), w1) ->
  workflow fuel config page paths w1 = (Throw e, w2) ->
  exists w',
    runPublish fuel config w = (Ok tt, w')
    /\ main_stdin fuel config w = (Ok 0%Z, w')
    /\ stdout w' = stdout w ++ [resultLine config "failed" e]
    /\ chrome w' = browser_close browser (chrome w2).
Proof.
  intros Hacq Hflow.
  assert (H1 : stdout w1 = stdout w).
  { rewrite <- (keeps_acquire _ stdout ltac:(reflexivity) ltac:(reflexivity)
                  ltac:(reflexivity) ltac:(reflexivity) ltac:(reflexivity) config w).
    rewrite Hacq. reflexivity. }
  pose proof (workflow_stdout fuel config page paths w1) as H2. rewrite Hflow in H2.
  assert (Hrun : runPublish fuel config w =
                 (Ok tt, snd (disconnect browser (snd (reportFailure config e w2))))).
  { unfold runPublish. unfold bind at 1. rewrite Hacq.
    unfold try_catch_finally, try_catch. rewrite Hflow. reflexivity. }
  eexists. split; [exact Hrun |].
  split; [unfold main_stdin, try_catch; unfold bind at 1; rewrite Hrun; reflexivity |].
  split; [simpl; congruence | reflexivity].
Qed.

(** Any exception thrown between [try] and [catch] becomes the one
    result line, [failed] with the exception's message; the browser is
    disconnected, [runPublish] returns and the exit code is 0. *)
Theorem workflow_exception_is_reported_as_failed
    fuel config (w : World) browser page paths w1 e w2 :
  acquire config w = (Ok (browser, page, paths), w1) ->
  workflow fuel config page paths w1 = (Throw e, w2) ->
  exists w',
    runPublish fuel config w = (Ok tt, w')
    /\ main_stdin fuel config w = (Ok 0%Z, w')
    /\ stdout w' =
         stdout w ++
         [JObj (optional "taskId" (taskId config)
                ++ [("status", JStr "failed"); ("data", JObj [("message", JStr e)])])]
    /\ chrome w' = browser_close browser (chrome w2).
Proof. exact (runPublish_workflow_throws fuel config w browser page paths w1 e w2). Qed.

(** With none of the three publish controls visible on the first
    attempt, the run reports [failed] with "Publish button not found"
    and makes no second attempt. *)
Theorem missing_publish_control_fails_the_run
    fuel config (w : World) browser page paths w1 w2 c1 c2 c3 :
  acquire config w = (Ok (browser, page, paths), w1) ->
  prepare fuel config page paths w1 = (Ok tt, w2) ->
  locator_isVisible page publishButton None (chrome w2) = (Fulfilled false, c1) ->
  locator_isVisible page publishButtonFallback None c1 = (Fulfilled false, c2) ->
  locator_isVisible page publishNoteBtn None c2 = (Fulfilled false, c3) ->
  exists w',
    runPublish fuel config w = (Ok tt, w')
    /\ stdout w' =
         stdout w ++
         [JObj (optional "taskId" (taskId config)
                ++ [("status", JStr "failed");
                    ("data", JObj [("message", JStr "Publish button not found")])])]
    /\ chrome w' = browser_close browser c3.
Proof.
  intros Hacq Hprep Hv1 Hv2 Hv3.
  assert (Hflow : workflow fuel config page paths w1 =
                  (Throw "Publish button not found",
                   with_chrome c3 (logged "Publish attempt 1/3..." w2))).
  { unfold workflow. unfold bind at 1. rewrite Hprep. unfold bind at 1.
    change (Z.to_nat maxRetries) with 3%nat. unfold publishLoop. unfold bind at 1.
    assert (Hatt : publishAttempt page 1 w2 =
                   (Throw "Publish button not found",
                    with_chrome c3 (logged "Publish attempt 1/3..." w2))).
    { apply publishAttempt_click_throws.
      unfold clickPublish, bind, await. simpl.
      rewrite Hv1. simpl. rewrite Hv2. simpl. rewrite Hv3. reflexivity. }
    rewrite Hatt. reflexivity. }
  destruct (runPublish_workflow_throws fuel config w browser page paths w1 _ _ Hacq Hflow)
    as (w' & Hrun & _ & Hout & Hc).
  exists w'. split; [exact Hrun |]. split; [exact Hout | exact Hc].
Qed.

(** A failure before the [try] (no Chrome, no image, a failed
    download, no connection, no page) leaves [runPublish] by the
    exception alone: nothing is printed by it and the browser is not
    disconnected.  In standard-input mode the [error] variant of the
    line is printed and the exit code is 1. *)
Theorem setup_failure_is_the_error_line fuel config (w : World) e w1 :
  acquire config w = (Throw e, w1) ->
  runPublish fuel config w = (Throw e, w1)
  /\ exists w',
       main_stdin fuel config w = (Ok 1%Z, w')
       /\ stdout w' =
            stdout w ++
            [JObj (optional "taskId" (taskId config)
                   ++ [("status", JStr "failed"); ("error", JStr e)])]
       /\ chrome w' = chrome w1.
Proof.
  intros Hacq.
  assert (Hrun : runPublish fuel config w = (Throw e, w1)).
  { unfold runPublish. unfold bind at 1. rewrite Hacq. reflexivity. }
  split; [exact Hrun |].
  assert (H1 : stdout w1 = stdout w).
  { rewrite <- (keeps_acquire _ stdout ltac:(reflexivity) ltac:(reflexivity)
                  ltac:(reflexivity) ltac:(reflexivity) ltac:(reflexivity) config w).
    rewrite Hacq. reflexivity. }
  unfold main_stdin, try_catch. unfold bind at 1. rewrite Hrun.
  eexists. split; [reflexivity |]. simpl. rewrite H1. split; reflexivity.
Qed.

(** Success at any attempt counts: whenever the loop ends with
    [publishSuccess] set, the line printed is the confirmed one. *)
Theorem success_at_any_attempt_is_confirmed
    fuel config (w : World) browser page paths w1 w2 w3 :
  acquire config w = (Ok (browser, page, paths), w1) ->
  prepare fuel config page paths w1 = (Ok tt, w2) ->
  publishLoop page (Z.to_nat maxRetries) 1 w2 = (Ok true, w3) ->
  exists w',
    runPublish fuel config w = (Ok tt, w')
    /\ stdout w' =
         stdout w ++
         [JObj (optional "taskId" (taskId config)
                ++ [("status", JStr "success");
                    ("data", JObj [("message", JStr "发布成功！")])])].
Proof.
  intros Hacq Hprep Hloop.
  exact (runPublish_after_loop fuel config w browser page paths w1 w2 true w3
           Hacq Hprep Hloop).
Qed.

(** A lost race is overruled by the rescan: when the first alternative
    text, [已发布], is reported visible, the attempt ends with success
    at once, without the error scan, the cooldown or the dump. *)
Theorem alternative_text_confirms_attempt page attempt (w w5 w6 w7 : World) message c :
  submit page attempt w = (Ok tt, w5) ->
  successRace page w5 = (Throw message, w6) ->
  reportRaceFailure page attempt message w6 = (Ok tt, w7) ->
  locator_isVisible page (GetByText "已发布" false) (Some 500%Z) (chrome w7)
    = (Fulfilled true, c) ->
  publishAttempt page attempt w =
    (Ok true,
     logged ("Found alternative success text: " +:+ dquote +:+ "已发布" +:+ dquote)
       (with_chrome c w7)).
Proof.
  intros Hsubmit Hrace Hreport Hvisible.
  unfold publishAttempt. unfold bind at 1. rewrite Hsubmit.
  unfold try_catch. unfold bind at 1. rewrite Hrace.
  unfold afterRaceFailure. unfold bind at 1. rewrite Hreport.
  unfold bind at 1. unfold additionalSuccessTexts, scanSuccessTexts.
  unfold bind at 1. unfold try_catch. unfold bind at 1. unfold await at 1.
  rewrite Hvisible. reflexivity.
Qed.

(** In command-line mode standard output receives either nothing, when
    [runPublish] throws, or one line with [status] and [data.message]
    and never a [taskId] or an [error] field; [main] itself does not
    throw. *)
Theorem main_cli_prints_at_most_one_plain_line
    (fuel : nat) (arg0 arg1 : string) (more : list string) (w : World) :
  match main_cli fuel arg0 arg1 more w with
  | (Ok _, w') =>
      stdout w' = stdout w
      \/ exists status message,
           stdout w' =
             stdout w ++
             [JObj [("status", JStr status); ("data", JObj [("message", JStr message)])]]
  | (Throw _, _) => False
  | (Diverge, _) => True
  end.
Proof.
  unfold main_cli, try_catch.
  match goal with
  | |- context [runPublish fuel ?c w] =>
      pose proof (runPublish_stdout fuel c w) as Hrun;
      destruct (runPublish fuel c w) as [[[]|e|] w1]
  end.
  - right. destruct Hrun as (status & message & Hout & _).
    exists status, message. exact Hout.
  - left. simpl. exact Hrun.
  - exact I.
Qed.

End Absorbed.

(** ** What a whole run leaves alone *)

Section WholeRun.

Context `{env : Env}.

Variable X : Type.
Variable f : World -> X.
Hypothesis f_stderr : forall e w, f (with_stderr e w) = f w.
Hypothesis f_host : forall h w, f (with_host h w) = f w.
Hypothesis f_chrome : forall c w, f (with_chrome c w) = f w.
Hypothesis f_stdout : forall o w, f (with_stdout o w) = f w.

Lemma keeps_console_log obj : keeps f (console_log obj).
Proof. intros w. unfold console_log, modify. simpl. apply f_stdout. Qed.

Lemma keeps_conclude config page publishSuccess :
  keeps f (conclude config page publishSuccess).
Proof.
  unfold conclude. apply keeps_bind; [apply keeps_waitForTimeout; assumption |].
  intros _. destruct publishSuccess; apply keeps_console_log.
Qed.

Lemma keeps_workflow fuel config page paths : keeps f (workflow fuel config page paths).
Proof.
  unfold workflow. apply keeps_bind; [apply keeps_prepare; assumption |]. intros _.
  apply keeps_bind; [apply keeps_publishLoop; assumption |]. intros s.
  apply keeps_conclude.
Qed.

Lemma keeps_reportFailure config message : keeps f (reportFailure config message).
Proof.
  unfold reportFailure. apply keeps_bind; [apply keeps_log; assumption |].
  intros _. apply keeps_console_log.
Qed.

(** The [try]/[catch]/[finally] of [runPublish]. *)
Lemma keeps_guarded fuel config browser page paths :
  keeps f (try_catch_finally (workflow fuel config page paths)
             (reportFailure config) (disconnect browser)).
Proof.
  apply keeps_try_catch_finally.
  - apply keeps_workflow.
  - intros e. apply keeps_reportFailure.
  - apply keeps_disconnect; assumption.
Qed.

End WholeRun.

Section OwnFiles.

Context `{env : Env}.

Lemma prefix_app (a c : string) : String.prefix a (a +:+ c) = true.
Proof.
  induction a as [|x a IH]; [destruct c; reflexivity |].
  change (String x a +:+ c) with (String x (a +:+ c)).
  cbn [String.prefix]. destruct (ascii_dec x x); [exact IH | contradiction].
Qed.

Lemma append_assoc (a b c : string) : (a +:+ b) +:+ c = a +:+ (b +:+ c).
Proof.
  induction a as [|x a IH]; [reflexivity |].
  change (String x (a +:+ b) +:+ c = String x (a +:+ (b +:+ c))).
  change (String x ((a +:+ b) +:+ c) = String x (a +:+ (b +:+ c))).
  rewrite IH. reflexivity.
Qed.

Lemma owned_in_tmpDir name : owned (Js.path_join tmpDir name) = true.
Proof.
  unfold owned, Js.path_join, Js.startsWith.
  rewrite <- (append_assoc tmpDir "/" name), prefix_app.
  rewrite orb_true_r. reflexivity.
Qed.

Lemma owned_tmpDir : owned tmpDir = true.
Proof. unfold owned. rewrite String.eqb_refl. reflexivity. Qed.

Lemma owned_USER_DATA_DIR : owned USER_DATA_DIR = true.
Proof. unfold owned. rewrite String.eqb_refl. apply orb_true_r. Qed.

Variable p : string.
Hypothesis p_foreign : owned p = false.

Lemma foreign_ne q : owned q = true -> q <> p.
Proof. intros Hq ->. rewrite p_foreign in Hq. discriminate. Qed.

Lemma at_p_insert q node :
  owned q = true -> keeps (at_path p) (modify (fun w => with_files (<[q := node]> (files w)) w)).
Proof.
  intros Hq w. unfold at_path, modify. simpl.
  apply lookup_insert_ne. exact (foreign_ne q Hq).
Qed.

Lemma at_p_delete q :
  owned q = true -> keeps (at_path p) (modify (fun w => with_files (delete q (files w)) w)).
Proof.
  intros Hq w. unfold at_path, modify. simpl.
  apply lookup_delete_ne. exact (foreign_ne q Hq).
Qed.

Lemma at_p_httpsGet url : keeps (at_path p) (httpsGet url).
Proof. intros w. unfold httpsGet. destruct (https_get url (host w)). reflexivity. Qed.

Lemma at_p_downloadImage url dest :
  owned dest = true -> keeps (at_path p) (downloadImage url dest).
Proof.
  intros Hd. unfold downloadImage.
  apply keeps_bind; [apply at_p_insert; exact Hd |]. intros _.
  apply keeps_bind; [apply at_p_httpsGet |]. intros [code msg body | msg | msg].
  - destruct (code =? 200)%Z; [apply at_p_insert; exact Hd | apply keeps_throw].
  - apply keeps_bind; [apply at_p_delete; exact Hd | intros; apply keeps_throw].
  - apply keeps_throw.
Qed.

Lemma at_p_processImage total i src : keeps (at_path p) (processImage total i src).
Proof.
  unfold processImage.
  apply keeps_bind; [apply keeps_log; reflexivity |]. intros _.
  apply keeps_bind.
  - destruct (Js.startsWith "http" src).
    + apply keeps_bind; [apply keeps_Date_now; reflexivity |]. intros now.
      apply keeps_bind; [| intros; apply keeps_ret].
      apply keeps_try_catch; [| intros; apply keeps_throw].
      apply keeps_bind; [apply at_p_downloadImage, owned_in_tmpDir |].
      intros _. apply keeps_log; reflexivity.
    + destruct (Js.startsWith "data:image" src); [| apply keeps_ret].
      apply keeps_try_catch; [| intros; apply keeps_throw].
      destruct (DataUrl.matchDataUrl src) as [[subtype payload]|]; [| apply keeps_throw].
      apply keeps_bind; [apply keeps_Date_now; reflexivity |]. intros now.
      apply keeps_bind; [apply at_p_insert, owned_in_tmpDir |]. intros _.
      apply keeps_bind; [apply keeps_log; reflexivity | intros; apply keeps_ret].
  - intros actualPath. apply keeps_bind; [apply keeps_gets |].
    intros present. destruct (negb present); [apply keeps_throw | apply keeps_ret].
Qed.

Lemma at_p_processImages total rest :
  forall i acc, keeps (at_path p) (processImages total i rest acc).
Proof.
  induction rest as [|src rest IH]; intros i acc; simpl; [apply keeps_ret |].
  apply keeps_bind; [apply at_p_processImage | intros; apply IH].
Qed.

Lemma at_p_ingest srcs : keeps (at_path p) (ingest srcs).
Proof.
  unfold ingest. apply keeps_bind; [apply keeps_gets |]. intros present.
  apply keeps_bind.
  { destruct (negb present); [apply at_p_insert, owned_tmpDir | apply keeps_ret]. }
  intros _. apply keeps_bind; [apply at_p_processImages |]. intros paths.
  apply keeps_bind; [apply keeps_log; reflexivity | intros; apply keeps_ret].
Qed.

Lemma at_p_launchChrome : keeps (at_path p) launchChrome.
Proof.
  unfold launchChrome. apply keeps_bind; [apply keeps_gets |].
  intros [chromePath|]; [| apply keeps_throw].
  apply keeps_bind; [apply keeps_gets |]. intros present.
  apply keeps_bind.
  { destruct (negb present); [apply at_p_insert, owned_USER_DATA_DIR | apply keeps_ret]. }
  intros _. repeat (apply keeps_bind; [apply keeps_log; reflexivity | intros _]).
  apply keeps_bind; [intros w; reflexivity |]. intros _.
  apply keeps_bind; [apply keeps_log; reflexivity |]. intros _.
  apply keeps_pollCDP; reflexivity.
Qed.

Lemma at_p_acquire config : keeps (at_path p) (acquire config).
Proof.
  unfold acquire.
  apply keeps_bind; [apply keeps_preflight; reflexivity |]. intros srcs.
  apply keeps_bind; [apply at_p_ingest |]. intros paths.
  apply keeps_bind; [apply keeps_log; reflexivity |]. intros _.
  apply keeps_bind.
  { unfold connectCDP. apply keeps_bind; [apply keeps_isCDPAvailable; reflexivity |].
    intros up. apply keeps_bind; [| intros; apply keeps_attach; reflexivity].
    destruct up; [apply keeps_log; reflexivity | apply at_p_launchChrome]. }
  intros browser.
  apply keeps_bind; [apply keeps_getOrCreatePage; reflexivity | intros; apply keeps_ret].
Qed.

Lemma at_p_runPublish fuel config : keeps (at_path p) (runPublish fuel config).
Proof.
  unfold runPublish. apply keeps_bind; [apply at_p_acquire |].
  intros [[browser page] paths]. apply keeps_guarded; reflexivity.
Qed.

End OwnFiles.

Section Footprint.

Context `{env : Env}.


Lemma connectCDP_spawned (w : World) :
  spawned (snd (connectCDP w)) = spawned w
  \/ exists chromePath,
       In chromePath CHROME_PATHS
       /\ spawned (snd (connectCDP w)) =
            spawned w ++
            [mkChild chromePath
               [ "--remote-debugging-port=9222";
                 "--user-data-dir=" +:+ USER_DATA_DIR;
                 "--no-first-run";
                 "--no-default-browser-check" ]].
Proof.
  remember (spawned (snd (connectCDP w))) as after eqn:Hafter.
  unfold connectCDP in Hafter. unfold bind at 1 in Hafter.
  destruct (isCDPAvailable_run w) as (up & Hprobe & _). rewrite Hprobe in Hafter.
  set (w1 := with_chrome _ w) in Hafter.
  assert (Hattach : forall w2, spawned (snd (attach w2)) = spawned w2)
    by (intros w2; apply keeps_attach; reflexivity).
  destruct up.
  - left. unfold bind at 1 in Hafter. rewrite log_run, Hattach in Hafter. exact Hafter.
  - unfold bind at 1 in Hafter.
    assert (Hget : exists found, getChromePath w1 = (Ok found, w1)
                   /\ forall q, found = Some q -> In q CHROME_PATHS).
    { unfold getChromePath, gets. eexists. split; [reflexivity |].
      intros q Hq. exact (proj1 (List.find_some _ _ Hq)). }
    destruct Hget as ([chromePath|] & Hget & Hin).
    + destruct (launchChrome_found w1 chromePath Hget) as (w2 & Hl & Hs & _).
      right. exists chromePath. split; [apply Hin; reflexivity |].
      assert (Hpoll : spawned (snd (pollCDP 20 w2)) = spawned w2)
        by (apply keeps_pollCDP; reflexivity).
      rewrite Hl in Hafter. destruct (pollCDP 20 w2) as [[[]|e|] w3]; simpl in *.
      * rewrite Hattach in Hafter. congruence.
      * congruence.
      * congruence.
    + left. unfold launchChrome in Hafter. unfold bind at 1 in Hafter.
      rewrite Hget in Hafter. exact Hafter.
Qed.

(** A run starts at most one process, and when it does it is a Chrome
    from [CHROME_PATHS] with the debugging port and the profile
    directory on its command line. *)
Theorem run_spawns_at_most_one_chrome (fuel : nat) (config : PublishConfig) (w : World) :
  spawned (snd (runPublish fuel config w)) = spawned w
  \/ exists chromePath,
       In chromePath CHROME_PATHS
       /\ spawned (snd (runPublish fuel config w)) =
            spawned w ++
            [mkChild chromePath
               [ "--remote-debugging-port=9222";
                 "--user-data-dir=" +:+ USER_DATA_DIR;
                 "--no-first-run";
                 "--no-default-browser-check" ]].
Proof.
  remember (spawned (snd (runPublish fuel config w))) as after eqn:Hafter.
  unfold runPublish, acquire in Hafter.
  assert (H1 : spawned (snd (preflight config w)) = spawned w)
    by (apply keeps_preflight; reflexivity).
  unfold bind at 1 in Hafter. unfold bind at 1 in Hafter.
  destruct (preflight config w) as [[srcs|e|] w1]; simpl in H1;
    [| left; simpl in Hafter; congruence | left; simpl in Hafter; congruence].
  assert (H2 : spawned (snd (ingest srcs w1)) = spawned w1)
    by (apply keeps_ingest; reflexivity).
  unfold bind at 1 in Hafter.
  destruct (ingest srcs w1) as [[paths|e|] w2]; simpl in H2;
    [| left; simpl in Hafter; congruence | left; simpl in Hafter; congruence].
  unfold bind at 1 in Hafter. rewrite log_run in Hafter. unfold bind at 1 in Hafter.
  set (w3 := logged _ w2) in Hafter.
  assert (H3 : spawned w3 = spawned w) by (simpl; congruence).
  pose proof (connectCDP_spawned w3) as Hc. rewrite H3 in Hc.
  destruct (connectCDP w3) as [[browser|e|] w4]; simpl in Hc;
    [| simpl in Hafter; subst after; exact Hc | simpl in Hafter; subst after; exact Hc].
  unfold bind at 1 in Hafter.
  assert (H4 : spawned (snd (getOrCreatePage browser w4)) = spawned w4)
    by (apply keeps_getOrCreatePage; reflexivity).
  destruct (getOrCreatePage browser w4) as [[page|e|] w5]; simpl in H4;
    [| simpl in Hafter; subst after; rewrite H4; exact Hc
     | simpl in Hafter; subst after; rewrite H4; exact Hc].
  unfold ret in Hafter.
  rewrite (keeps_guarded _ spawned ltac:(reflexivity) ltac:(reflexivity)
             ltac:(reflexivity) ltac:(reflexivity) fuel config browser page paths w5)
    in Hafter.
  subst after. rewrite H4. exact Hc.
Qed.

End Footprint.

(** ** Waiting for the login, and termination *)

Section Termination.

Context `{env : Env}.

Lemma never_throws_halts {A} (m : M A) : never_throws m -> halts m.
Proof. intros H w. destruct (H w) as (a & w' & ->). discriminate. Qed.

(** One turn of the wait: it always completes and leaves the clock
    alone. *)
Lemma wait_turn page (w : World) :
  exists w',
    try_catch
      (await (page_wait page (WaitForURL "**/publish/publish" 5000)))
      (fun _ =>
         bind (checkPublishPage page)
              (fun there' =>
                 if negb there'
                 then log "Still waiting for you to reach the Publish page... (Please log in)"
                 else ret tt)) w
    = (Ok tt, w')
    /\ host w' = host w.
Proof.
  unfold try_catch, await, bind, checkPublishPage, gets.
  destruct (page_wait page _ (chrome w)) as [[[]|e] c]; simpl.
  - eexists. split; reflexivity.
  - destruct (negb _); eexists; split; reflexivity.
Qed.

(** The wait leaves the loop in one of two ways only, once the clock
    advances and the fuel covers the 120 s budget. *)
Lemma awaitPublishPage_ends (Hclock : ticking_clock) page start :
  forall fuel (w : World),
    (1 <= fuel)%nat ->
    (120002 <= Z.of_nat fuel + (fst (date_now (host w)) - start))%Z ->
    match awaitPublishPage fuel page start w with
    | (Ok _, w') => Js.includes "/publish/publish" (page_url page (chrome w')) = true
    | (Throw e, _) =>
        e = "Timeout waiting for login. Please reach the publish page manually."
    | (Diverge, _) => False
    end.
Proof.
  induction fuel as [|fuel IH]; intros w Hone Hbudget; [lia |].
  simpl awaitPublishPage. unfold bind at 1. unfold checkPublishPage at 1, gets.
  destruct (Js.includes "/publish/publish" (page_url page (chrome w))) eqn:Hthere;
    [exact Hthere |].
  unfold bind at 1. unfold Date_now.
  pose proof (Hclock (host w)) as Htick.
  destruct (date_now (host w)) as [t h1]. simpl in Hbudget, Htick.
  destruct (t - start >? 120000)%Z eqn:Hlate; [reflexivity |].
  unfold bind at 1.
  destruct (wait_turn page (with_host h1 w)) as (w2 & -> & Hhost). simpl in Hhost.
  apply IH.
  - rewrite Z.gtb_ltb in Hlate. apply Z.ltb_ge in Hlate. lia.
  - rewrite Z.gtb_ltb in Hlate. apply Z.ltb_ge in Hlate. rewrite Hhost. lia.
Qed.

(** The login wait returns only with the page on the publish URL. *)
Lemma awaitPublishPage_returns_there page start :
  forall fuel (w w' : World),
    awaitPublishPage fuel page start w = (Ok tt, w') ->
    Js.includes "/publish/publish" (page_url page (chrome w')) = true.
Proof.
  induction fuel as [|fuel IH]; intros w w' H; simpl in H;
    apply bind_ok in H as (there & w1 & Hcheck & H);
    injection Hcheck as <- <-;
    destruct (Js.includes "/publish/publish" (page_url page (chrome w))) eqn:Hthere.
  - injection H as <-. exact Hthere.
  - discriminate.
  - injection H as <-. exact Hthere.
  - apply bind_ok in H as (now & w2 & _ & H).
    destruct (now - start >? 120000)%Z; [discriminate |].
    apply bind_ok in H as ([] & w3 & _ & H). exact (IH _ _ H).
Qed.

(** [reachPublishPage] returns only with the page on the publish URL,
    whatever the clock and however long the login took: no file is
    handed to the page and no field is filled anywhere else. *)
Theorem upload_starts_only_on_publish_page fuel page (w w' : World) :
  reachPublishPage fuel page w = (Ok tt, w') ->
  Js.includes "/publish/publish" (page_url page (chrome w')) = true.
Proof.
  intros H. unfold reachPublishPage in H.
  apply bind_ok in H as ([] & w1 & _ & H).
  apply bind_ok in H as ([] & w2 & _ & H).
  apply bind_ok in H as (there & w3 & Hcheck & H).
  injection Hcheck as <- <-.
  destruct (Js.includes "/publish/publish" (page_url page (chrome w2))) eqn:Hthere; simpl in H.
  - injection H as <-. exact Hthere.
  - apply bind_ok in H as ([] & w4 & _ & H).
    apply bind_ok in H as ([] & w5 & _ & H).
    apply bind_ok in H as (startTime & w6 & _ & H).
    apply bind_ok in H as ([] & w7 & Hloop & H).
    rewrite log_run in H. injection H as <-. simpl.
    exact (awaitPublishPage_returns_there _ _ _ _ _ Hloop).
Qed.

(** What [reachPublishPage] comes to when the first check fails. *)
Lemma reachPublishPage_waits fuel page (w : World) c1 :
  page_goto page PUBLISH_URL "networkidle" 60000 (chrome w) = (Fulfilled tt, c1) ->
  Js.includes "/publish/publish" (page_url page c1) = false ->
  exists w1,
    reachPublishPage fuel page w =
      bind (awaitPublishPage fuel page (fst (date_now (host w))))
           (fun _ => log "Target page detected! Proceeding...") w1
    /\ host w1 = snd (date_now (host w)).
Proof.
  intros Hgoto Hthere. unfold reachPublishPage.
  unfold bind at 1. rewrite log_run. unfold bind at 1. unfold await. simpl chrome.
  rewrite Hgoto. cbv beta iota.
  unfold bind at 1. unfold checkPublishPage at 1, gets. cbv beta iota.
  change (chrome (with_chrome c1 (logged "Navigating to Xiaohongshu Creator Center..." w)))
    with c1.
  rewrite Hthere. change (negb false) with true. cbv beta iota.
  unfold bind at 1. rewrite log_run. unfold bind at 1. rewrite log_run.
  unfold bind at 1. unfold Date_now. simpl host.
  destruct (date_now (host w)) as [t h1]. cbv beta iota. simpl fst. simpl snd.
  eexists. split; reflexivity.
Qed.

(** A user who never reaches the publish page: with a clock that
    advances, the wait ends with the login timeout. *)
Theorem login_wait_times_out fuel page (w : World) c1 :
  ticking_clock ->
  (120001 <= Z.of_nat fuel)%Z ->
  (forall c, Js.includes "/publish/publish" (page_url page c) = false) ->
  page_goto page PUBLISH_URL "networkidle" 60000 (chrome w) = (Fulfilled tt, c1) ->
  exists w',
    reachPublishPage fuel page w =
      (Throw "Timeout waiting for login. Please reach the publish page manually.", w').
Proof.
  intros Hclock Hfuel Hnever Hgoto.
  destruct (reachPublishPage_waits fuel page w c1 Hgoto (Hnever c1)) as (w1 & -> & Hhost).
  unfold bind.
  pose proof (awaitPublishPage_ends Hclock page (fst (date_now (host w))) fuel w1) as Hends.
  pose proof (Hclock (host w)) as Htick.
  rewrite Hhost in Hends.
  specialize (Hends ltac:(lia) ltac:(lia)).
  destruct (awaitPublishPage fuel page _ w1) as [[[]|e|] w2].
  - rewrite Hnever in Hends. discriminate.
  - subst e. eexists. reflexivity.
  - contradiction.
Qed.

Lemma halts_reachPublishPage (Hclock : ticking_clock) fuel page :
  (120001 <= Z.of_nat fuel)%Z -> halts (reachPublishPage fuel page).
Proof.
  intros Hfuel w.
  destruct (page_goto page PUBLISH_URL "networkidle" 60000 (chrome w)) as [[[]|e] c1] eqn:Hgoto.
  - destruct (Js.includes "/publish/publish" (page_url page c1)) eqn:Hthere.
    + unfold reachPublishPage, bind, log, modify, await, checkPublishPage, gets. simpl.
      rewrite Hgoto. simpl. rewrite Hthere. simpl. discriminate.
    + destruct (reachPublishPage_waits fuel page w c1 Hgoto Hthere) as (w1 & -> & Hhost).
      unfold bind.
      pose proof (awaitPublishPage_ends Hclock page (fst (date_now (host w))) fuel w1) as Hends.
      pose proof (Hclock (host w)) as Htick.
      rewrite Hhost in Hends.
      specialize (Hends ltac:(lia) ltac:(lia)).
      destruct (awaitPublishPage fuel page _ w1) as [[[]|e|] w2];
        [discriminate | discriminate | contradiction].
  - unfold reachPublishPage, bind, log, modify, await. simpl. rewrite Hgoto. discriminate.
Qed.

Lemma halts_clickPublish page : halts (clickPublish page).
Proof. unfold clickPublish. halting. Qed.

Lemma halts_publishAttempt page attempt : halts (publishAttempt page attempt).
Proof.
  unfold publishAttempt, submit.
  apply halts_bind; [| intros; apply never_throws_halts, never_throws_confirmation].
  apply halts_bind; [apply halts_modify |]. intros _.
  apply halts_bind; [apply halts_clickPublish |]. intros _.
  apply halts_bind; [apply halts_modify |]. intros _.
  apply halts_bind;
    [apply never_throws_halts, never_throws_checkUploadPopup | intros; apply halts_modify].
Qed.

Lemma halts_publishLoop page left : forall attempt, halts (publishLoop page left attempt).
Proof.
  induction left as [|left IH]; intros attempt; simpl; [apply halts_ret |].
  apply halts_bind; [apply halts_publishAttempt |].
  intros [|]; [apply halts_ret | apply IH].
Qed.

Lemma halts_pollCDP n : halts (pollCDP n).
Proof.
  induction n as [|n IH]; simpl; [apply halts_throw |].
  apply halts_bind; [unfold isCDPAvailable; halting |].
  intros [|]; [apply halts_modify |].
  apply halts_bind; [apply halts_modify | intros; apply IH].
Qed.

Lemma halts_acquire config : halts (acquire config).
Proof.
  unfold acquire.
  apply halts_bind; [unfold preflight, getChromePath, selectSources; halting |]. intros srcs.
  apply halts_bind; [apply halts_ingest |]. intros paths.
  apply halts_bind; [apply halts_modify |]. intros _.
  apply halts_bind.
  { unfold connectCDP. apply halts_bind; [unfold isCDPAvailable; halting |].
    intros up. apply halts_bind; [| intros; unfold attach; halting].
    destruct up; [apply halts_modify |].
    unfold launchChrome, getChromePath, existsSync, mkdirSync, spawn.
    apply halts_bind; [apply halts_gets |].
    intros [chromePath|]; [| apply halts_throw].
    apply halts_bind; [apply halts_gets |]. intros present.
    apply halts_bind; [destruct (negb present); [apply halts_modify | apply halts_ret] |].
    intros _. repeat (apply halts_bind; [apply halts_modify | intros _]).
    apply halts_pollCDP. }
  intros browser.
  apply halts_bind; [unfold getOrCreatePage; halting | intros; apply halts_ret].
Qed.

Lemma halts_workflow (Hclock : ticking_clock) fuel config page paths :
  (120001 <= Z.of_nat fuel)%Z -> halts (workflow fuel config page paths).
Proof.
  intros Hfuel. unfold workflow, prepare.
  apply halts_bind.
  { apply halts_bind; [apply halts_reachPublishPage; assumption |]. intros _.
    apply halts_bind; [unfold uploadImages; halting | intros; unfold fillForm; halting]. }
  intros _. apply halts_bind; [apply halts_publishLoop |].
  intros s. unfold conclude, console_log. halting.
Qed.


End Termination.

(** * The properties on the scripted environment *)

Module Scenarios.

Import Demo.



(** The same run, followed through its third attempt: the scan sees
    [发布失败] and the outcome is unchanged. *)
Lemma detected_error_leaves_outcome_success_witness :
  @scanErrorMessages failing tt errorMessages fail8 = (Ok true, fail9)
  /\ exists w10 w',
       @dumpPageState failing tt fail9 = (Ok tt, w10)
       /\ @publishAttempt failing tt 3 fail4 = (Ok false, w10)
       /\ @runPublish failing 0 remoteRequest fail0 = (Ok tt, w')
       /\ stdout w' =
            [JObj [("status", JStr "success");
                   ("data", JObj [("message", JStr "发布操作已执行，请检查小红书后台确认。")])]].
Proof.
  split; [vm_compute; reflexivity |].
  apply (@detected_error_leaves_outcome_success failing 0 remoteRequest fail0
           tt tt failPaths fail1 fail2 fail3 fail4 fail5 fail6 fail7 fail8 fail9
           "Timeout 8000ms exceeded." true);
    vm_compute; reflexivity.
Defined.

(** A 404 on the first image: the error is thrown and the empty file
    stays in the temporary directory. *)
Lemma rejected_download_leaves_partial_file_witness :
  exists w',
    @processImage failing 1 0 "https://img.example/gone.gif" fail0 =
      (Throw "Failed to download image 1: Failed to download image: 404 Not Found", w')
    /\ files w' !! "/tmp/auto-tauri-xhs/publish_1700000000000_0.png"
       = Some (File EmptyString).
Proof.
  apply (@rejected_download_leaves_partial_file failing 1 0
           "https://img.example/gone.gif" fail0 404 "Not Found" EmptyString
           (t0 + 1)%Z).
  - vm_compute; reflexivity.
  - vm_compute; reflexivity.
  - vm_compute; discriminate.
Defined.

(** The probe answers on the scripted host: attach, nothing spawned. *)
Lemma connectCDP_running_browser_is_reused_witness :
  @connectCDP cooperating coop0
    = @attach cooperating (logged "检测到已运行的 Chrome，正在连接..." coop0)
  /\ spawned (snd (@connectCDP cooperating coop0)) = []
  /\ files (snd (@connectCDP cooperating coop0)) = files coop0.
Proof.
  apply (@connectCDP_running_browser_is_reused cooperating coop0 coop0).
  vm_compute; reflexivity.
Defined.

(** [jpeg] becomes [jpg]. *)
Lemma inline_image_extension_from_subtype_witness :
  exists subtype payload ext (timestamp : Z),
    "data:image/jpeg;base64,AAAA" = "data:image/" +:+ subtype +:+ ";base64," +:+ payload
    /\ DataUrl.all_letters subtype = true
    /\ (subtype = "jpeg" -> ext = "jpg")
    /\ (subtype <> "jpeg" -> ext = subtype)
    /\ "/tmp/auto-tauri-xhs/publish_base64_1700000000000_0.jpg" =
         Js.path_join (@tmpDir cooperating)
           ("publish_base64_" +:+ pretty timestamp +:+ "_" +:+ pretty 0%nat +:+ "." +:+ ext)
    /\ is_Some
         (files (snd (@processImage cooperating 1 0 "data:image/jpeg;base64,AAAA" coop0))
            !! "/tmp/auto-tauri-xhs/publish_base64_1700000000000_0.jpg").
Proof.
  apply (@inline_image_extension_from_subtype cooperating 1 0
           "data:image/jpeg;base64,AAAA" coop0).
  - vm_compute; reflexivity.
  - vm_compute; reflexivity.
Defined.

(** A served [.jpg] URL is stored as [.png]. *)
Lemma remote_image_is_named_png_witness :
  (exists timestamp : Z,
     "/tmp/auto-tauri-xhs/publish_1700000000000_0.png" =
       Js.path_join (@tmpDir cooperating)
         ("publish_" +:+ pretty timestamp +:+ "_" +:+ pretty 0%nat +:+ ".png"))
  /\ is_Some
       (files (snd (@processImage cooperating 1 0 "https://img.example/a.jpg" coop0))
          !! "/tmp/auto-tauri-xhs/publish_1700000000000_0.png").
Proof.
  apply (@remote_image_is_named_png cooperating 1 0 "https://img.example/a.jpg" coop0).
  - vm_compute; reflexivity.
  - vm_compute; reflexivity.
Defined.

(** Three images wait 40 seconds. *)
Lemma settling_wait_is_scaled_and_capped_witness :
  waitTime 3 = 40%Z
  /\ (30 <= waitTime 3 <= 60)%Z
  /\ exists c,
       chrome (snd (@uploadImages cooperating tt ["a"; "b"; "c"] coop1))
       = @elapse cooperating (40 * 1000) c.
Proof.
  destruct (@settling_wait_is_scaled_and_capped cooperating tt ["a"; "b"; "c"] coop1
              (snd (@uploadImages cooperating tt ["a"; "b"; "c"] coop1))
              ltac:(simpl; lia)) as (Hformula & Hbounds & Hrun).
  split; [exact Hformula |]. split; [exact Hbounds |].
  apply Hrun. vm_compute; reflexivity.
Defined.

(** The second of two images answers 404: the run stops there, before
    the browser is touched. *)
Lemma ingestion_is_all_or_nothing_witness :
  @runPublish failing 0 brokenRequest fail0 =
    (Throw "Failed to download image 2: Failed to download image: 404 Not Found", brokenEnd)
  /\ chrome brokenEnd = chrome fail0
  /\ spawned brokenEnd = spawned fail0
  /\ stdout brokenEnd = stdout fail0.
Proof.
  pose proof (@ingestion_is_all_or_nothing failing brokenSources broken1) as H.
  assert (Hrun : @ingest failing brokenSources broken1 =
                 (Throw "Failed to download image 2: Failed to download image: 404 Not Found",
                  brokenEnd)) by (vm_compute; reflexivity).
  rewrite Hrun in H. destruct H as (_ & _ & H).
  apply (H 0%nat brokenRequest fail0). vm_compute; reflexivity.
Defined.

End Scenarios.

(** ** Successful resolution, and the names it gives *)

Section Names.

Context `{env : Env}.

Lemma downloadImage_ok url dest (w : World) statusMessage body h :
  https_get url (host w) = (Response 200 statusMessage body, h) ->
  exists w',
    downloadImage url dest w = (Ok tt, w')
    /\ files w' !! dest = Some (File body).
Proof.
  intros Hanswer. unfold downloadImage, bind, createWriteStream, pipeToFile, modify, httpsGet.
  simpl. rewrite Hanswer. simpl.
  eexists. split; [reflexivity |]. simpl. apply lookup_insert_eq.
Qed.

(** A remote reference answered 200 is resolved, and its file holds
    the response body. *)
Theorem remote_image_is_downloaded
    total i sourcePath (w : World) statusMessage body h :
  Js.startsWith "http" sourcePath = true ->
  https_get sourcePath (snd (date_now (host w))) = (Response 200 statusMessage body, h) ->
  exists w',
    processImage total i sourcePath w =
      (Ok (Js.path_join tmpDir
             ("publish_" +:+ pretty (fst (date_now (host w))) +:+ "_" +:+ pretty i +:+ ".png")),
       w')
    /\ files w' !!
         Js.path_join tmpDir
           ("publish_" +:+ pretty (fst (date_now (host w))) +:+ "_" +:+ pretty i +:+ ".png")
       = Some (File body).
Proof.
  intros Hhttp Hanswer. unfold processImage. rewrite Hhttp.
  unfold bind at 1. rewrite log_run.
  unfold bind at 1. unfold bind at 1. unfold Date_now. simpl host.
  destruct (date_now (host w)) as [t h0]. simpl in Hanswer. simpl fst.
  set (dest := Js.path_join tmpDir
                 ("publish_" +:+ pretty t +:+ "_" +:+ pretty i +:+ ".png")).
  match goal with
  | |- context [bind (try_catch _ _) _ ?w0] =>
      destruct (downloadImage_ok sourcePath dest w0 statusMessage body h Hanswer)
        as (w' & Hd & Hfile)
  end.
  unfold bind at 1. unfold try_catch. unfold bind at 1. rewrite Hd.
  rewrite log_run. unfold ret at 1. unfold bind, existsSync, gets. simpl.
  rewrite Hfile. rewrite bool_decide_eq_true_2 by (eexists; reflexivity).
  simpl. eexists. split; [reflexivity |]. exact Hfile.
Qed.

(** A well-formed inline reference is resolved, and its file holds the
    decoded payload. *)
Theorem inline_image_is_written_decoded total i subtype payload (w : World) :
  DataUrl.all_letters subtype = true ->
  subtype <> EmptyString ->
  payload <> EmptyString ->
  DataUrl.dot_only payload = true ->
  exists w',
    processImage total i ("data:image/" +:+ subtype +:+ ";base64," +:+ payload) w =
      (Ok (Js.path_join tmpDir
             ("publish_base64_" +:+ pretty (fst (date_now (host w))) +:+ "_"
              +:+ pretty i +:+ "."
              +:+ (if String.eqb subtype "jpeg" then "jpg" else subtype))), w')
    /\ files w' !!
         Js.path_join tmpDir
           ("publish_base64_" +:+ pretty (fst (date_now (host w))) +:+ "_"
            +:+ pretty i +:+ "."
            +:+ (if String.eqb subtype "jpeg" then "jpg" else subtype))
       = Some (File (base64_decode payload)).
Proof.
  intros Hletters Hsub Hpay Hdot. unfold processImage.
  change (Js.startsWith "http" ("data:image/" +:+ subtype +:+ ";base64," +:+ payload))
    with false.
  change (Js.startsWith "data:image" ("data:image/" +:+ subtype +:+ ";base64," +:+ payload))
    with true.
  cbv iota. rewrite (matchDataUrl_complete _ _ Hletters Hsub Hpay Hdot).
  unfold bind, try_catch, log, modify, Date_now, writeFileSync, existsSync, gets, ret.
  simpl. destruct (date_now (host w)) as [t h0]. simpl.
  rewrite lookup_insert_eq.
  rewrite bool_decide_eq_true_2 by (eexists; reflexivity).
  simpl. eexists. split; [reflexivity |]. simpl. apply lookup_insert_eq.
Qed.

(** *** Generated names do not collide *)

Lemma lacks_pretty_N_go c :
  (forall x, pretty_N_char x <> c) ->
  forall x s, lacks c s = true -> lacks c (pretty_N_go x s) = true.
Proof.
  intros Hc x. induction (N.lt_wf_0 x) as [x _ IH]; intros s Hs.
  destruct (decide (x = 0)%N) as [-> | Hx]; [rewrite pretty_N_go_0; exact Hs |].
  rewrite pretty_N_go_step by lia. apply IH; [apply N.div_lt; lia |].
  cbn [lacks]. rewrite Hs, andb_true_r. apply negb_true_iff, Ascii.eqb_neq, Hc.
Qed.

Lemma lacks_pretty_N c (x : N) :
  (forall y, pretty_N_char y <> c) -> lacks c (pretty x) = true.
Proof.
  intros Hc. unfold pretty, pretty_N. destruct (decide (x = 0)%N).
  - cbn [lacks]. rewrite andb_true_r. apply negb_true_iff, Ascii.eqb_neq. exact (Hc 0%N).
  - apply lacks_pretty_N_go; [exact Hc | reflexivity].
Qed.

Lemma lacks_pretty_nat c (i : nat) :
  (forall y, pretty_N_char y <> c) -> lacks c (pretty i) = true.
Proof. intros Hc. exact (lacks_pretty_N c (N.of_nat i) Hc). Qed.

Lemma lacks_pretty_Z c (t : Z) :
  (forall y, pretty_N_char y <> c) -> c <> "-"%char -> lacks c (pretty t) = true.
Proof.
  intros Hc Hdash. unfold pretty, pretty_Z. destruct t as [|q|q].
  - cbn [lacks]. rewrite andb_true_r. apply negb_true_iff, Ascii.eqb_neq. exact (Hc 0%N).
  - exact (lacks_pretty_N c (Npos q) Hc).
  - change ("-" +:+ pretty q) with (String "-" (pretty q)). cbn [lacks].
    pose proof (lacks_pretty_N c (Npos q) Hc) as Hq.
    change (lacks c (pretty q) = true) in Hq.
    rewrite Hq, andb_true_r.
    apply negb_true_iff, Ascii.eqb_neq. congruence.
Qed.

Lemma pretty_N_char_digit y :
  (48 <= nat_of_ascii (pretty_N_char y) <= 57)%nat.
Proof. unfold pretty_N_char. repeat case_match; vm_compute; lia. Qed.

Lemma not_a_digit c :
  (nat_of_ascii c < 48 \/ 57 < nat_of_ascii c)%nat -> forall y, pretty_N_char y <> c.
Proof. intros Hc y <-. pose proof (pretty_N_char_digit y). lia. Qed.

(** Two strings without [c], each followed by [c], are cut at the same
    place. *)
Lemma split_at c (a b x y : string) :
  lacks c a = true -> lacks c b = true ->
  a +:+ String c x = b +:+ String c y -> a = b /\ x = y.
Proof.
  revert b. induction a as [|a0 a IH]; intros [|b0 b] Ha Hb H.
  - injection H as ->. split; reflexivity.
  - change (String c x = String b0 (b +:+ String c y)) in H. injection H as <- _.
    cbn [lacks] in Hb. rewrite Ascii.eqb_refl in Hb. discriminate.
  - change (String a0 (a +:+ String c x) = String c y) in H. injection H as -> _.
    cbn [lacks] in Ha. rewrite Ascii.eqb_refl in Ha. discriminate.
  - change (String a0 (a +:+ String c x) = String b0 (b +:+ String c y)) in H.
    injection H as -> H. cbn [lacks] in Ha, Hb.
    apply andb_true_iff in Ha as [_ Ha]. apply andb_true_iff in Hb as [_ Hb].
    destruct (IH b Ha Hb H) as [-> ->]. split; reflexivity.
Qed.

Lemma append_cancel_l (a x y : string) : a +:+ x = a +:+ y -> x = y.
Proof.
  induction a as [|a0 a IH]; intros H; [exact H |].
  change (String a0 (a +:+ x) = String a0 (a +:+ y)) in H. injection H as H. exact (IH H).
Qed.

Lemma remote_name_inj (t1 t2 : Z) (i j : nat) :
  "publish_" +:+ pretty t1 +:+ "_" +:+ pretty i +:+ ".png"
  = "publish_" +:+ pretty t2 +:+ "_" +:+ pretty j +:+ ".png" ->
  i = j.
Proof.
  intros H. apply (append_cancel_l "publish_") in H.
  change (pretty t1 +:+ String "_" (pretty i +:+ ".png")
          = pretty t2 +:+ String "_" (pretty j +:+ ".png")) in H.
  apply (split_at "_") in H as [_ H];
    [| apply lacks_pretty_Z; [apply not_a_digit; vm_compute; lia | discriminate]
     | apply lacks_pretty_Z; [apply not_a_digit; vm_compute; lia | discriminate]].
  change (pretty i +:+ String "." "png" = pretty j +:+ String "." "png") in H.
  apply (split_at ".") in H as [H _];
    [| apply lacks_pretty_nat, not_a_digit; vm_compute; lia
     | apply lacks_pretty_nat, not_a_digit; vm_compute; lia].
  exact (pretty_nat_inj _ _ H).
Qed.

Lemma inline_name_inj (t1 t2 : Z) (i j : nat) (e1 e2 : string) :
  "publish_base64_" +:+ pretty t1 +:+ "_" +:+ pretty i +:+ "." +:+ e1
  = "publish_base64_" +:+ pretty t2 +:+ "_" +:+ pretty j +:+ "." +:+ e2 ->
  i = j.
Proof.
  intros H. apply (append_cancel_l "publish_base64_") in H.
  change (pretty t1 +:+ String "_" (pretty i +:+ "." +:+ e1)
          = pretty t2 +:+ String "_" (pretty j +:+ "." +:+ e2)) in H.
  apply (split_at "_") in H as [_ H];
    [| apply lacks_pretty_Z; [apply not_a_digit; vm_compute; lia | discriminate]
     | apply lacks_pretty_Z; [apply not_a_digit; vm_compute; lia | discriminate]].
  change (pretty i +:+ String "." e1 = pretty j +:+ String "." e2) in H.
  apply (split_at ".") in H as [H _];
    [| apply lacks_pretty_nat, not_a_digit; vm_compute; lia
     | apply lacks_pretty_nat, not_a_digit; vm_compute; lia].
  exact (pretty_nat_inj _ _ H).
Qed.

Lemma remote_name_not_inline (t1 t2 : Z) (r1 r2 : string) :
  "publish_" +:+ pretty t1 +:+ "_" +:+ r1 <> "publish_base64_" +:+ pretty t2 +:+ r2.
Proof.
  intros H.
  change ("publish_base64_" +:+ pretty t2 +:+ r2)
    with ("publish_" +:+ String "b" ("ase64_" +:+ pretty t2 +:+ r2)) in H.
  apply (append_cancel_l "publish_") in H.
  assert (Hb : lacks "b" (pretty t1) = true)
    by (apply lacks_pretty_Z; [apply not_a_digit; vm_compute; lia | discriminate]).
  destruct (pretty t1) as [|a0 a].
  - discriminate H.
  - change (String a0 (a +:+ "_" +:+ r1) = String "b" ("ase64_" +:+ pretty t2 +:+ r2)) in H.
    injection H as -> _. discriminate Hb.
Qed.

(** The files the agent generates never collide: if two references,
    each remote or inline, were resolved to the same path, they stood at
    the same index of the list.  Whatever the clock answers, two images
    of one request get two names. *)
Theorem generated_paths_identify_the_index
    total1 total2 i j src1 src2 path (w1 w1' w2 w2' : World) :
  Js.startsWith "http" src1 || Js.startsWith "data:image" src1 = true ->
  Js.startsWith "http" src2 || Js.startsWith "data:image" src2 = true ->
  processImage total1 i src1 w1 = (Ok path, w1') ->
  processImage total2 j src2 w2 = (Ok path, w2') ->
  i = j.
Proof.
  intros K1 K2 H1 H2.
  destruct (Js.startsWith "http" src1) eqn:Hh1;
    destruct (Js.startsWith "http" src2) eqn:Hh2; simpl in K1, K2.
  - destruct (processImage_http _ _ _ _ _ _ Hh1 H1) as (E1 & _).
    destruct (processImage_http _ _ _ _ _ _ Hh2 H2) as (E2 & _).
    rewrite E1 in E2. unfold Js.path_join in E2.
    apply append_cancel_l, append_cancel_l in E2. exact (remote_name_inj _ _ _ _ E2).
  - destruct (processImage_http _ _ _ _ _ _ Hh1 H1) as (E1 & _).
    destruct (processImage_data _ _ _ _ _ _ K2 H2) as (s2 & p2 & _ & E2 & _).
    rewrite E1 in E2. unfold Js.path_join in E2.
    apply append_cancel_l, append_cancel_l in E2.
    exfalso. exact (remote_name_not_inline _ _ _ _ E2).
  - destruct (processImage_data _ _ _ _ _ _ K1 H1) as (s1 & p1 & _ & E1 & _).
    destruct (processImage_http _ _ _ _ _ _ Hh2 H2) as (E2 & _).
    rewrite E1 in E2. unfold Js.path_join in E2.
    apply append_cancel_l, append_cancel_l in E2. symmetry in E2.
    exfalso. exact (remote_name_not_inline _ _ _ _ E2).
  - destruct (processImage_data _ _ _ _ _ _ K1 H1) as (s1 & p1 & _ & E1 & _).
    destruct (processImage_data _ _ _ _ _ _ K2 H2) as (s2 & p2 & _ & E2 & _).
    rewrite E1 in E2. unfold Js.path_join in E2.
    apply append_cancel_l, append_cancel_l in E2. exact (inline_name_inj _ _ _ _ _ _ E2).
Qed.

End Names.

(** * The further properties on the scripted environments *)

Module Checks.

Import Demo.

Lemma launchChrome_spawns_one_process_witness :
  spawned (snd (@launchChrome slow slow0)) = [chromeCommand]
  /\ is_Some (files (snd (@launchChrome slow slow0))
                !! "/Users/demo/.auto-tauri/browser-profile").
Proof.
  apply (@launchChrome_spawns_one_process slow slow0 chromeBinary).
  vm_compute; reflexivity.
Defined.

Lemma launchChrome_times_out_after_twenty_polls_witness :
  exists w',
    @launchChrome down down0 = (Throw "Chrome 启动超时", w')
    /\ chrome w' = (20%nat, 10000%Z).
Proof.
  destruct (@launchChrome_times_out_after_twenty_polls down down0 chromeBinary)
    as (w' & Hrun & Hchrome).
  - vm_compute; reflexivity.
  - intros c H. vm_compute in H. discriminate H.
  - exists w'. split; [exact Hrun |]. rewrite Hchrome. vm_compute; reflexivity.
Defined.

Lemma pollCDP_returns_after_positive_probe_witness :
  exists k,
    k < 20
    /\ fst (@fetch_ok slow probeUrl (Nat.iter k (@failedPoll slow) (chrome slow0)))
       = Fulfilled true
    /\ chrome slowUp
       = snd (@fetch_ok slow probeUrl (Nat.iter k (@failedPoll slow) (chrome slow0)))
    /\ forall j, j < k ->
         fst (@fetch_ok slow probeUrl (Nat.iter j (@failedPoll slow) (chrome slow0)))
         <> Fulfilled true.
Proof.
  apply (@pollCDP_returns_after_positive_probe slow 20 slow0 slowUp).
  vm_compute; reflexivity.
Defined.

Lemma missing_chrome_stops_the_run_witness :
  @runPublish cooperating 0 request bare
  = (Throw ("未检测到 Chrome 浏览器。" +:+ @installHint cooperating), bare)
  /\ exists w',
       @main_stdin cooperating 0 request bare = (Ok 1%Z, w')
       /\ stdout w' =
            stdout bare ++
            [JObj (optional "taskId" (taskId request)
                   ++ [("status", JStr "failed");
                       ("error",
                        JStr ("未检测到 Chrome 浏览器。" +:+ @installHint cooperating))])]
       /\ spawned w' = spawned bare /\ chrome w' = chrome bare /\ files w' = files bare.
Proof.
  apply (@missing_chrome_stops_the_run cooperating 0 request bare).
  intros q _. apply lookup_empty.
Defined.

Lemma no_image_is_refused_witness :
  @runPublish cooperating 0 emptyRequest coop0 =
    (Throw "Image path is required for XHS publish. Please provide imagePaths or imagePath.",
     logged ("Found Chrome at: " +:+ chromeBinary) coop0).
Proof.
  apply (@no_image_is_refused cooperating 0 emptyRequest coop0 chromeBinary).
  - vm_compute; reflexivity.
  - right; reflexivity.
  - left; reflexivity.
Defined.

Lemma missing_local_image_is_refused_witness :
  fst (@processImage cooperating 1 0 "/Users/demo/cat.png" coop0)
  = Throw "Image file not found: /Users/demo/cat.png".
Proof.
  rewrite (@missing_local_image_is_refused cooperating 1 0 "/Users/demo/cat.png" coop0).
  - reflexivity.
  - vm_compute; reflexivity.
  - vm_compute; reflexivity.
  - vm_compute; reflexivity.
Defined.

Lemma malformed_inline_image_is_refused_witness :
  fst (@processImage cooperating 1 0 "data:image/svg+xml;base64,AAAA" coop0)
  = Throw "Failed to process Base64 image 1: Invalid Base64 image format".
Proof.
  rewrite (@malformed_inline_image_is_refused cooperating 1 0
             "data:image/svg+xml;base64,AAAA" coop0).
  - reflexivity.
  - vm_compute; reflexivity.
  - vm_compute; reflexivity.
Defined.

Lemma transport_error_removes_partial_file_witness :
  exists w',
    @processImage down 1 0 "https://img.example/a.jpg" down0 =
      (Throw "Failed to download image 1: socket hang up", w')
    /\ files w' !! "/tmp/auto-tauri-xhs/publish_1700000000000_0.png" = None.
Proof.
  apply (@transport_error_removes_partial_file down 1 0 "https://img.example/a.jpg"
           down0 "socket hang up" (t0 + 1000)%Z).
  - vm_compute; reflexivity.
  - vm_compute; reflexivity.
Defined.

Lemma workflow_exception_is_reported_as_failed_witness :
  exists w',
    @runPublish blank 0 request blank0 = (Ok tt, w')
    /\ @main_stdin blank 0 request blank0 = (Ok 0%Z, w')
    /\ stdout w' =
         [JObj [("taskId", JStr "abc"); ("status", JStr "failed");
                ("data", JObj [("message", JStr "Publish button not found")])]]
    /\ chrome w' = tt.
Proof.
  apply (@workflow_exception_is_reported_as_failed blank 0 request blank0
           tt tt coopPaths blank1 "Publish button not found" blankThrown);
    vm_compute; reflexivity.
Defined.

Lemma missing_publish_control_fails_the_run_witness :
  exists w',
    @runPublish blank 0 request blank0 = (Ok tt, w')
    /\ stdout w' =
         [JObj [("taskId", JStr "abc"); ("status", JStr "failed");
                ("data", JObj [("message", JStr "Publish button not found")])]]
    /\ chrome w' = tt.
Proof.
  apply (@missing_publish_control_fails_the_run blank 0 request blank0
           tt tt coopPaths blank1 blank2 tt tt tt);
    vm_compute; reflexivity.
Defined.


Lemma upload_starts_only_on_publish_page_witness :
  Js.includes "/publish/publish" (@page_url cooperating tt (chrome coopReached)) = true.
Proof.
  apply (@upload_starts_only_on_publish_page cooperating 0 tt coop1 coopReached).
  vm_compute; reflexivity.
Defined.

Lemma login_wait_times_out_witness :
  exists w',
    @reachPublishPage down loginBudget tt down0 =
      (Throw "Timeout waiting for login. Please reach the publish page manually.", w').
Proof.
  apply (@login_wait_times_out down loginBudget tt down0 (0%nat, 0%Z)).
  - intros h. simpl. lia.
  - vm_compute. discriminate.
  - intros c. vm_compute; reflexivity.
  - vm_compute; reflexivity.
Defined.


Lemma inline_image_is_resolved_witness :
  exists w',
    @processImage cooperating 1 0 "data:image/png;base64,AAAA" coop0 =
      (Ok "/tmp/auto-tauri-xhs/publish_base64_1700000000000_0.png", w').
Proof.
  apply (@inline_image_is_resolved cooperating 1 0 "png" "AAAA" coop0).
  - vm_compute; reflexivity.
  - discriminate.
  - discriminate.
  - vm_compute; reflexivity.
Defined.

Lemma remote_image_is_downloaded_witness :
  exists w',
    @processImage cooperating 1 0 "https://img.example/a.jpg" coop0 =
      (Ok "/tmp/auto-tauri-xhs/publish_1700000000000_0.png", w')
    /\ files w' !! "/tmp/auto-tauri-xhs/publish_1700000000000_0.png" = Some (File "JFIF").
Proof.
  apply (@remote_image_is_downloaded cooperating 1 0 "https://img.example/a.jpg" coop0
           "OK" "JFIF" (t0 + 1)%Z).
  - vm_compute; reflexivity.
  - vm_compute; reflexivity.
Defined.

Lemma inline_image_is_written_decoded_witness :
  exists w',
    @processImage cooperating 1 0 "data:image/jpeg;base64,AAAA" coop0 =
      (Ok "/tmp/auto-tauri-xhs/publish_base64_1700000000000_0.jpg", w')
    /\ files w' !! "/tmp/auto-tauri-xhs/publish_base64_1700000000000_0.jpg"
       = Some (File "AAAA").
Proof.
  apply (@inline_image_is_written_decoded cooperating 1 0 "jpeg" "AAAA" coop0).
  - vm_compute; reflexivity.
  - discriminate.
  - discriminate.
  - vm_compute; reflexivity.
Defined.

Lemma generated_paths_identify_the_index_witness :
  @processImage cooperating 1 0 "data:image/png;base64,AAAA" coop0
  = (Ok "/tmp/auto-tauri-xhs/publish_base64_1700000000000_0.png",
     snd (@processImage cooperating 1 0 "data:image/png;base64,AAAA" coop0))
  /\ @processImage cooperating 2 0 "data:image/png;base64,BBBB" coop0
     = (Ok "/tmp/auto-tauri-xhs/publish_base64_1700000000000_0.png",
        snd (@processImage cooperating 2 0 "data:image/png;base64,BBBB" coop0))
  /\ 0%nat = 0%nat.
Proof.
  split; [vm_compute; reflexivity |]. split; [vm_compute; reflexivity |].
  apply (@generated_paths_identify_the_index cooperating 1 2 0 0
           "data:image/png;base64,AAAA" "data:image/png;base64,BBBB"
           "/tmp/auto-tauri-xhs/publish_base64_1700000000000_0.png"
           coop0 (snd (@processImage cooperating 1 0 "data:image/png;base64,AAAA" coop0))
           coop0 (snd (@processImage cooperating 2 0 "data:image/png;base64,BBBB" coop0)));
    vm_compute; reflexivity.
Defined.

Lemma setup_failure_is_the_error_line_witness :
  @runPublish down 0 remoteRequest down0
  = (Throw "Failed to download image 1: socket hang up", downThrown)
  /\ exists w',
       @main_stdin down 0 remoteRequest down0 = (Ok 1%Z, w')
       /\ stdout w' =
            [JObj [("status", JStr "failed");
                   ("error", JStr "Failed to download image 1: socket hang up")]]
       /\ chrome w' = (0%nat, 0%Z).
Proof.
  apply (@setup_failure_is_the_error_line down 0 remoteRequest down0
           "Failed to download image 1: socket hang up" downThrown).
  vm_compute; reflexivity.
Defined.

Lemma success_at_any_attempt_is_confirmed_witness :
  exists w',
    @runPublish eventually 0 request later0 = (Ok tt, w')
    /\ stdout w' =
         [JObj [("taskId", JStr "abc"); ("status", JStr "success");
                ("data", JObj [("message", JStr "发布成功！")])]].
Proof.
  apply (@success_at_any_attempt_is_confirmed eventually 0 request later0
           tt tt coopPaths later1 later2 later3);
    vm_compute; reflexivity.
Defined.

Lemma alternative_text_confirms_attempt_witness :
  fst (@publishAttempt quiet tt 1 quiet0) = Ok true.
Proof.
  rewrite (@alternative_text_confirms_attempt quiet tt 1 quiet0 quiet5 quiet6 quiet7
             "Timeout 8000ms exceeded." tt).
  - reflexivity.
  - vm_compute; reflexivity.
  - vm_compute; reflexivity.
  - vm_compute; reflexivity.
  - vm_compute; reflexivity.
Defined.

End Checks.
